(** * Container analysis for the edge-gateway migration manifest

    A shallow embedding of [scripts/analyze_containers.py]: the rule chain
    that inspects the metadata of one container (as returned by the
    container runtime's inspection command, i.e. a parsed JSON document),
    decides whether it is a reverse proxy, classifies it, decides whether it
    is a migration candidate and recommends routing labels.

    The script works on untyped Python values, so the embedding does too:
    a container is a [pyval], every Python operation that can raise is a
    function into the error monad [res], and the fact that well-formed
    records never raise is a theorem rather than an artefact of typing. *)

From Stdlib Require Import String Ascii List Bool Arith ZArith Lia DecimalString.
Import ListNotations.
Set Warnings "-register-all".
Set Warnings "-notation-overridden".
Set Warnings "-notation-incompatible-prefix".
Local Open Scope string_scope.

(* ====================================================================== *)
(** * Python strings

    A Python string is modelled as the Rocq [string] of its UTF-8 bytes.
    Image references, label keys, port specifications and network names
    are ASCII text as a rule, but nothing below assumes it: the operations
    that count characters ([take], [chars]) count code points, and [lower]
    produces every ASCII character that [str.lower] produces. *)

Module PyStr.

Definition lower_char (c : ascii) : ascii :=
  let n := nat_of_ascii c in
  if Nat.leb 65 n && Nat.leb n 90 then ascii_of_nat (n + 32) else c.

(** The byte of value [n]. *)
Definition byte_c4 : ascii := Eval vm_compute in ascii_of_nat 196.
Definition byte_b0 : ascii := Eval vm_compute in ascii_of_nat 176.
Definition byte_e2 : ascii := Eval vm_compute in ascii_of_nat 226.
Definition byte_84 : ascii := Eval vm_compute in ascii_of_nat 132.
Definition byte_aa : ascii := Eval vm_compute in ascii_of_nat 170.
Definition byte_cc : ascii := Eval vm_compute in ascii_of_nat 204.
Definition byte_87 : ascii := Eval vm_compute in ascii_of_nat 135.

(** A byte [10xxxxxx], which continues a code point. *)
Definition is_continuation (c : ascii) : bool :=
  match c with
  | Ascii _ _ _ _ _ _ b6 b7 => b7 && negb b6
  end.

(** The Kelvin sign U+212A and the capital I with dot above U+0130: the two
    code points outside ASCII whose lower case has an ASCII character in
    it, [k] for the first and [i] followed by U+0307 for the second. *)
Definition kelvin_sign : string :=
  String byte_e2 (String byte_84 (String byte_aa EmptyString)).

Definition capital_i_with_dot : string :=
  String byte_c4 (String byte_b0 EmptyString).

Definition combining_dot_above : string :=
  String byte_cc (String byte_87 EmptyString).

(** [s.lower()], as far as ASCII goes: the letters A-Z and the two code
    points above are mapped as Python maps them, so that every ASCII
    character of the result, and its place among the others, is Python's.
    Any other code point is left as it is, where Python may put another
    code point outside ASCII; the script only ever looks for ASCII text in
    a lower-cased string, and such a test cannot tell the two apart. *)
Fixpoint lower (s : string) : string :=
  match s with
  | EmptyString => EmptyString
  | String c t =>
      match t with
      | EmptyString => String (lower_char c) EmptyString
      | String c1 t1 =>
          if Ascii.eqb c byte_c4 && Ascii.eqb c1 byte_b0 then
            String "i"%char (combining_dot_above ++ lower t1)
          else
            match t1 with
            | EmptyString => String (lower_char c) (lower t)
            | String c2 t2 =>
                if Ascii.eqb c byte_e2 && Ascii.eqb c1 byte_84
                   && Ascii.eqb c2 byte_aa
                then String "k"%char (lower t2)
                else String (lower_char c) (lower t)
            end
      end
  end.

(** [s.startswith(p)] *)
Fixpoint startswith (s p : string) {struct p} : bool :=
  match p with
  | EmptyString => true
  | String a p' =>
      match s with
      | EmptyString => false
      | String b s' => Ascii.eqb a b && startswith s' p'
      end
  end.

(** [sub in s] for two strings *)
Fixpoint contains (sub s : string) {struct s} : bool :=
  startswith s sub ||
  match s with
  | EmptyString => false
  | String _ t => contains sub t
  end.

(** The text before the first [sep], and the text after it when there is
    one: the two pieces [s.split(sep, 1)] is made of. *)
Fixpoint partition1 (sep : ascii) (s : string) : string * option string :=
  match s with
  | EmptyString => (EmptyString, None)
  | String c t =>
      if Ascii.eqb c sep then (EmptyString, Some t)
      else let (h, r) := partition1 sep t in (String c h, r)
  end.

(** [s.split(sep, 1)] *)
Definition split1 (sep : ascii) (s : string) : list string :=
  match partition1 sep s with
  | (h, None) => [h]
  | (h, Some r) => [h; r]
  end.

(** [s.split(sep)[0]] *)
Definition split_head (sep : ascii) (s : string) : string :=
  fst (partition1 sep s).

(** [s.lstrip(c)] for a one-character argument *)
Fixpoint lstrip (c : ascii) (s : string) : string :=
  match s with
  | EmptyString => EmptyString
  | String a t => if Ascii.eqb a c then lstrip c t else s
  end.

(** [s.replace(a, b)] for one-character [a] and [b] *)
Fixpoint replace (a b : ascii) (s : string) : string :=
  match s with
  | EmptyString => EmptyString
  | String c t => String (if Ascii.eqb c a then b else c) (replace a b t)
  end.

(** [s[:n]] *)
Fixpoint take (n : nat) (s : string) {struct s} : string :=
  match s with
  | EmptyString => EmptyString
  | String c t =>
      if is_continuation c then String c (take n t)
      else match n with
           | O => EmptyString
           | S n' => String c (take n' t)
           end
  end.

(** [sep.join(l)] *)
Fixpoint join (sep : string) (l : list string) : string :=
  match l with
  | [] => EmptyString
  | [x] => x
  | x :: t => x ++ sep ++ join sep t
  end.

(** [x in l] for a list of strings *)
Definition mem (x : string) (l : list string) : bool :=
  existsb (String.eqb x) l.

(** Characters of a string, as Python iterates them. *)
Fixpoint chars (s : string) : list string :=
  match s with
  | EmptyString => []
  | String c t =>
      match chars t with
      | (String c1 _ as x) :: rest =>
          if is_continuation c1 then String c x :: rest
          else String c EmptyString :: x :: rest
      | rest => String c EmptyString :: rest
      end
  end.

Definition hex_digit (n : nat) : ascii :=
  ascii_of_nat (if Nat.ltb n 10 then 48 + n else 87 + n).

(** [repr(s)]: quoted, with the quote character, the backslash and control
    characters escaped. *)
Definition repr_char (quote c : ascii) : string :=
  let n := nat_of_ascii c in
  if Ascii.eqb c quote || Ascii.eqb c "\"%char then String "\"%char (String c EmptyString)
  else if Nat.eqb n 9 then "\t"
  else if Nat.eqb n 10 then "\n"
  else if Nat.eqb n 13 then "\r"
  else if Nat.ltb n 32 || Nat.eqb n 127 then
    String "\"%char (String "x"%char
      (String (hex_digit (n / 16)) (String (hex_digit (n mod 16)) EmptyString)))
  else String c EmptyString.

Fixpoint repr_body (quote : ascii) (s : string) : string :=
  match s with
  | EmptyString => EmptyString
  | String c t => repr_char quote c ++ repr_body quote t
  end.

Definition repr (s : string) : string :=
  let single := "'"%char in
  let double := ascii_of_nat 34 in
  let quote :=
    if contains (String single EmptyString) s
       && negb (contains (String double EmptyString) s)
    then double else single in
  String quote (repr_body quote s ++ String quote EmptyString).

End PyStr.

(* ====================================================================== *)
(** * Python values and the operations the script applies to them *)

(** The values a parsed JSON document is made of. A [PDict] is read as a
    Python [dict]: insertion-ordered, looked up by its first entry for a
    key. *)
Inductive pyval : Type :=
| PNone
| PBool (b : bool)
| PInt (z : Z)
| PStr (s : string)
| PList (l : list pyval)
| PDict (d : list (string * pyval)).

Inductive exn : Type := KeyError | TypeError | AttributeError | ValueError.

(** The result of running Python code: a value, or a raised exception. *)
Inductive res (A : Type) : Type :=
| Ok (a : A)
| Raise (e : exn).
Arguments Ok {A} a.
Arguments Raise {A} e.

Definition bind {A B : Type} (m : res A) (k : A -> res B) : res B :=
  match m with
  | Ok a => k a
  | Raise e => Raise e
  end.

Declare Scope py_scope.
Delimit Scope py_scope with py.
Notation "x <- m ;; k" := (bind m (fun x => k))
  (at level 61, m at next level, right associativity) : py_scope.
Notation "' pat <- m ;; k" := (bind m (fun x => match x with pat => k end))
  (at level 61, pat pattern, m at next level, right associativity) : py_scope.
Local Open Scope py_scope.

Definition is_ok {A : Type} (m : res A) : bool :=
  match m with Ok _ => true | Raise _ => false end.

(** ** Dictionaries *)

Definition dict (V : Type) : Type := list (string * V).

Fixpoint dict_get {V : Type} (k : string) (d : dict V) : option V :=
  match d with
  | [] => None
  | (k', v) :: t => if String.eqb k' k then Some v else dict_get k t
  end.

(** [d[k] = v]: overwrite in place, or append. *)
Fixpoint dict_set {V : Type} (k : string) (v : V) (d : dict V) : dict V :=
  match d with
  | [] => [(k, v)]
  | (k', v') :: t =>
      if String.eqb k' k then (k', v) :: t else (k', v') :: dict_set k v t
  end.

Definition dict_has {V : Type} (k : string) (d : dict V) : bool :=
  match dict_get k d with Some _ => true | None => false end.

Definition dict_keys {V : Type} (d : dict V) : list string := map fst d.

(** ** Operations on values *)

(** [bool(v)] *)
Definition truthy (v : pyval) : bool :=
  match v with
  | PNone => false
  | PBool b => b
  | PInt z => negb (Z.eqb z 0)
  | PStr s => negb (String.eqb s "")
  | PList l => match l with [] => false | _ => true end
  | PDict d => match d with [] => false | _ => true end
  end.

(** [v or w] *)
Definition py_or (v w : pyval) : pyval := if truthy v then v else w.

(** [v[k]] for a string key *)
Definition py_getitem (v : pyval) (k : string) : res pyval :=
  match v with
  | PDict d => match dict_get k d with Some x => Ok x | None => Raise KeyError end
  | _ => Raise TypeError
  end.

(** [v.get(k, dflt)] *)
Definition py_get (v : pyval) (k : string) (dflt : pyval) : res pyval :=
  match v with
  | PDict d => Ok (match dict_get k d with Some x => x | None => dflt end)
  | _ => Raise AttributeError
  end.

(** [v.lower()] *)
Definition py_lower (v : pyval) : res string :=
  match v with
  | PStr s => Ok (PyStr.lower s)
  | _ => Raise AttributeError
  end.

(** [v.lstrip('/')] *)
Definition py_lstrip_slash (v : pyval) : res string :=
  match v with
  | PStr s => Ok (PyStr.lstrip "/"%char s)
  | _ => Raise AttributeError
  end.

(** [v.split(sep, 1)] *)
Definition py_split1 (sep : ascii) (v : pyval) : res (list string) :=
  match v with
  | PStr s => Ok (PyStr.split1 sep s)
  | _ => Raise AttributeError
  end.

(** [a, b = l] *)
Definition unpack2 {A : Type} (l : list A) : res (A * A) :=
  match l with
  | [a; b] => Ok (a, b)
  | _ => Raise ValueError
  end.

(** [k in v] for a string [k] *)
Definition py_contains (k : string) (v : pyval) : res bool :=
  match v with
  | PStr s => Ok (PyStr.contains k s)
  | PDict d => Ok (dict_has k d)
  | PList l =>
      Ok (existsb (fun x => match x with PStr s => String.eqb s k | _ => false end) l)
  | _ => Raise TypeError
  end.

(** The elements [for x in v] runs over. *)
Definition py_iter (v : pyval) : res (list pyval) :=
  match v with
  | PList l => Ok l
  | PDict d => Ok (map (fun kv => PStr (fst kv)) d)
  | PStr s => Ok (map PStr (PyStr.chars s))
  | _ => Raise TypeError
  end.

(** [v.items()] *)
Definition py_items (v : pyval) : res (dict pyval) :=
  match v with
  | PDict d => Ok d
  | _ => Raise AttributeError
  end.

(** [list(v.keys())] *)
Definition py_keys (v : pyval) : res (list string) :=
  match v with
  | PDict d => Ok (dict_keys d)
  | _ => Raise AttributeError
  end.

(** [v[:n]] *)
Definition py_slice_to (n : nat) (v : pyval) : res pyval :=
  match v with
  | PStr s => Ok (PStr (PyStr.take n s))
  | PList l => Ok (PList (firstn n l))
  | _ => Raise TypeError
  end.

(** [repr(v)] and [str(v)], the latter being what an f-string inserts. *)
Fixpoint py_repr (v : pyval) : string :=
  match v with
  | PNone => "None"
  | PBool true => "True"
  | PBool false => "False"
  | PInt z => NilZero.string_of_int (Z.to_int z)
  | PStr s => PyStr.repr s
  | PList l => "[" ++ PyStr.join ", " (map py_repr l) ++ "]"
  | PDict d =>
      "{" ++ PyStr.join ", "
               (map (fun kv => PyStr.repr (fst kv) ++ ": " ++ py_repr (snd kv)) d)
          ++ "}"
  end.

Definition py_str (v : pyval) : string :=
  match v with
  | PStr s => s
  | _ => py_repr v
  end.

(** Run a fallible function over a list, left to right. *)
Fixpoint map_res {A B : Type} (f : A -> res B) (l : list A) : res (list B) :=
  match l with
  | [] => Ok []
  | x :: t => y <- f x ;; ys <- map_res f t ;; Ok (y :: ys)
  end.

(** [any(f(x) for x in l)]: stops at the first true element. *)
Fixpoint py_any {A : Type} (f : A -> res bool) (l : list A) : res bool :=
  match l with
  | [] => Ok false
  | x :: t => b <- f x ;; if b then Ok true else py_any f t
  end.

(* ====================================================================== *)
(** * The script: lookup tables *)

Definition REVERSE_PROXY_IMAGES : list string :=
  ["traefik"; "nginx"; "caddy"; "haproxy"; "envoy";
   "nginx-proxy-manager"; "kong"; "istio"; "jwilder/nginx-proxy";
   "nginxproxy/nginx-proxy"; "lucaslorentz/caddy-docker-proxy"].

Definition PROXY_NETWORK_PATTERNS : list string :=
  ["traefik"; "edge"; "ingress"; "proxy"; "gateway"].

Definition HTTP_SERVICE_PORTS : list string :=
  ["80"; "443"; "8080"; "8443"; "3000"; "5000"; "8000"; "8888"; "9000"].

(* ====================================================================== *)
(** * The script: expressions it repeats *)

(** [container['Config']['Image']] *)
Definition container_image (container : pyval) : res pyval :=
  config <- py_getitem container "Config" ;;
  py_getitem config "Image".

(** [container['Config']['Image'].lower()] *)
Definition image_lower (container : pyval) : res string :=
  image <- container_image container ;;
  py_lower image.

(** [container['Config'].get(field, dflt) or dflt], with [dflt] one of
    [{}] and [[]]. *)
Definition config_field (container : pyval) (field : string) (dflt : pyval)
  : res pyval :=
  config <- py_getitem container "Config" ;;
  v <- py_get config field dflt ;;
  Ok (py_or v dflt).

(** [container.get('NetworkSettings', {}).get(field, {}) or {}] *)
Definition network_setting (container : pyval) (field : string) : res pyval :=
  ns <- py_get container "NetworkSettings" (PDict []) ;;
  v <- py_get ns field (PDict []) ;;
  Ok (py_or v (PDict [])).

(** [list((container.get('NetworkSettings', {}).get('Networks', {}) or {}).keys())] *)
Definition container_networks (container : pyval) : res (list string) :=
  nets <- network_setting container "Networks" ;;
  py_keys nets.

(** [container['Name'].lstrip('/')] *)
Definition container_name (container : pyval) : res string :=
  name <- py_getitem container "Name" ;;
  py_lstrip_slash name.

(** [port.split('/')[0] in HTTP_SERVICE_PORTS] *)
Definition is_http_port (port : string) : bool :=
  PyStr.mem (PyStr.split_head "/"%char port) HTTP_SERVICE_PORTS.

(** Truth value of a dictionary or list the script built itself. *)
Definition nonempty {A : Type} (l : list A) : bool :=
  match l with [] => false | _ => true end.

(* ====================================================================== *)
(** * The script: proxy detector *)

(** [port in ports and ports[port]] *)
Definition port_bound (ports : pyval) (port : string) : res pyval :=
  b <- py_contains port ports ;;
  if b then py_getitem ports port else Ok (PBool false).

(** [any(pat in k.lower() for k in keys)] *)
Definition any_key_contains (pat : string) (keys : list pyval) : res bool :=
  py_any (fun k => kl <- py_lower k ;; Ok (PyStr.contains pat kl)) keys.

Definition is_reverse_proxy (container : pyval) : res bool :=
  image <- image_lower container ;;
  if existsb (fun proxy_image => PyStr.contains proxy_image image)
       REVERSE_PROXY_IMAGES
  then Ok true
  else
    ports <- network_setting container "Ports" ;;
    has_80 <- port_bound ports "80/tcp" ;;
    has_443 <- port_bound ports "443/tcp" ;;
    if truthy has_80 && truthy has_443 then
      labels <- config_field container "Labels" (PDict []) ;;
      if PyStr.contains "traefik" image then Ok true
      else
        keys <- py_iter labels ;;
        b <- any_key_contains "traefik" keys ;;
        if b then Ok true else Ok false
    else Ok false.

(* ====================================================================== *)
(** * The script: signal extractors *)

Record proxy_signals : Type := {
  traefik_labels : dict pyval;
  nginx_proxy_env : dict string;
  caddy_labels : dict pyval;
  has_proxy_signals : bool
}.

Definition no_signals : proxy_signals :=
  {| traefik_labels := []; nginx_proxy_env := []; caddy_labels := [];
     has_proxy_signals := false |}.

(** The loop that turns the [Env] list into a mapping:
    [for e in env_list: if '=' in e: k, v = e.split('=', 1); env[k] = v] *)
Fixpoint parse_env (env_list : list pyval) (env : dict string)
  : res (dict string) :=
  match env_list with
  | [] => Ok env
  | e :: rest =>
      b <- py_contains "=" e ;;
      if b then
        parts <- py_split1 "="%char e ;;
        ' (k, v) <- unpack2 parts ;;
        parse_env rest (dict_set k v env)
      else parse_env rest env
  end.

Definition traefik_step (s : proxy_signals) (kv : string * pyval)
  : proxy_signals :=
  let (k, v) := kv in
  if PyStr.startswith k "traefik." then
    {| traefik_labels := dict_set k v (traefik_labels s);
       nginx_proxy_env := nginx_proxy_env s;
       caddy_labels := caddy_labels s;
       has_proxy_signals := true |}
  else s.

Definition nginx_proxy_vars : list string :=
  ["VIRTUAL_HOST"; "VIRTUAL_PORT"; "LETSENCRYPT_HOST"; "LETSENCRYPT_EMAIL"].

Definition nginx_step (env : dict string) (s : proxy_signals) (var : string)
  : proxy_signals :=
  match dict_get var env with
  | Some v =>
      {| traefik_labels := traefik_labels s;
         nginx_proxy_env := dict_set var v (nginx_proxy_env s);
         caddy_labels := caddy_labels s;
         has_proxy_signals := true |}
  | None => s
  end.

Definition caddy_step (s : proxy_signals) (kv : string * pyval)
  : proxy_signals :=
  let (k, v) := kv in
  if PyStr.startswith k "caddy"
     || PyStr.contains "caddy.reverse_proxy" (PyStr.lower k) then
    {| traefik_labels := traefik_labels s;
       nginx_proxy_env := nginx_proxy_env s;
       caddy_labels := dict_set k v (caddy_labels s);
       has_proxy_signals := true |}
  else s.

Definition detect_proxy_signals (container : pyval) : res proxy_signals :=
  labels <- config_field container "Labels" (PDict []) ;;
  env_val <- config_field container "Env" (PList []) ;;
  env_list <- py_iter env_val ;;
  env <- parse_env env_list [] ;;
  items <- py_items labels ;;
  let s1 := fold_left traefik_step items no_signals in
  let s2 := fold_left (nginx_step env) nginx_proxy_vars s1 in
  Ok (fold_left caddy_step items s2).

(** [f"{b['HostIp']}:{b['HostPort']}"] *)
Definition format_binding (b : pyval) : res string :=
  ip <- py_getitem b "HostIp" ;;
  port <- py_getitem b "HostPort" ;;
  Ok (py_str ip ++ ":" ++ py_str port).

Fixpoint published_loop (items : dict pyval) (published : dict (list string))
  : res (dict (list string)) :=
  match items with
  | [] => Ok published
  | (port, bindings) :: rest =>
      if truthy bindings then
        bs <- py_iter bindings ;;
        strs <- map_res format_binding bs ;;
        published_loop rest (dict_set port strs published)
      else published_loop rest published
  end.

Definition get_published_ports (container : pyval) : res (dict (list string)) :=
  ports_config <- network_setting container "Ports" ;;
  items <- py_items ports_config ;;
  published_loop items [].

Definition get_exposed_ports (container : pyval) : res (list string) :=
  exposed <- config_field container "ExposedPorts" (PDict []) ;;
  py_keys exposed.

Definition is_in_proxy_network (networks : list string) : bool :=
  existsb (fun net =>
             existsb (fun pattern => PyStr.contains pattern (PyStr.lower net))
               PROXY_NETWORK_PATTERNS)
    networks.

(* ====================================================================== *)
(** * The script: classifier *)

(** [proxy_signals['traefik_labels'].get('traefik.enable', '').lower() == 'true'] *)
Definition traefik_enabled (labels : dict pyval) : res bool :=
  v <- py_get (PDict labels) "traefik.enable" (PStr "") ;;
  s <- py_lower v ;;
  Ok (String.eqb s "true").

Definition classify_container (container : pyval) : res string :=
  signals <- detect_proxy_signals container ;;
  published_ports <- get_published_ports container ;;
  networks <- container_networks container ;;
  rule1 <- (if nonempty (traefik_labels signals) then
              enabled <- traefik_enabled (traefik_labels signals) ;;
              Ok (enabled || is_in_proxy_network networks)
            else Ok false) ;;
  if rule1 then Ok "already_proxied_traefik"
  else if nonempty (nginx_proxy_env signals) || nonempty (caddy_labels signals)
  then Ok "already_proxied_other"
  else if nonempty published_ports && negb (has_proxy_signals signals)
  then Ok "exposed_directly"
  else if negb (nonempty published_ports) && negb (has_proxy_signals signals)
  then Ok "internal_only"
  else Ok "unknown_needs_review".

(* ====================================================================== *)
(** * The script: candidacy, risks and recommended labels *)

Definition web_patterns : list string :=
  ["web"; "api"; "http"; "nginx"; "apache"; "flask"; "django"; "express";
   "node"; "react"; "next"].

Definition is_http_service (container : pyval) : res bool :=
  image <- image_lower container ;;
  exposed <- get_exposed_ports container ;;
  if existsb is_http_port exposed then Ok true
  else if existsb (fun pattern => PyStr.contains pattern image) web_patterns
  then Ok true
  else Ok false.

(** [name.replace('-', '_').replace('.', '_')] *)
Definition safe_name (name : string) : string :=
  PyStr.replace "."%char "_"%char (PyStr.replace "-"%char "_"%char name).

(** A dictionary display [{k1: v1, ..., kn: vn}]. *)
Definition dict_of_list {V : Type} (l : list (string * V)) : dict V :=
  fold_left (fun d kv => dict_set (fst kv) (snd kv) d) l [].

Definition generate_recommended_labels (container : pyval)
  : res (dict string) :=
  name <- container_name container ;;
  let safe_name := safe_name name in
  exposed <- get_exposed_ports container ;;
  let port :=
    match find is_http_port exposed with
    | Some p => PyStr.split_head "/"%char p
    | None => "80"
    end in
  Ok (dict_of_list
        [("traefik.enable", "true");
         ("traefik.http.routers." ++ safe_name ++ ".rule",
          "Host(`" ++ name ++ ".local`)");
         ("traefik.http.routers." ++ safe_name ++ ".entrypoints", "websecure");
         ("traefik.http.routers." ++ safe_name ++ ".tls", "true");
         ("traefik.http.services." ++ safe_name ++ ".loadbalancer.server.port",
          port)]).

Definition is_candidate_for_migration (container : pyval)
    (classification : string) : res (bool * string) :=
  name <- container_name container ;;
  rp <- is_reverse_proxy container ;;
  if rp then Ok (false, "Container is a reverse proxy")
  else if PyStr.startswith classification "already_proxied" then
    Ok (false, "Already proxied (" ++ classification ++ ")")
  else if String.eqb classification "exposed_directly" then
    http <- is_http_service container ;;
    if http
    then Ok (true, "HTTP service exposed directly - good migration candidate")
    else Ok (false, "Exposed directly but not an HTTP service")
  else if String.eqb classification "internal_only" then
    http <- is_http_service container ;;
    if http
    then Ok (true, "Internal HTTP service - could benefit from proxy exposure")
    else Ok (false, "Internal service, not HTTP")
  else Ok (false, "Needs manual review").

Definition stateful : list string :=
  ["postgres"; "mysql"; "mariadb"; "redis"; "mongo"; "elasticsearch"].

Definition analyze_risks (container : pyval)
    (published_ports : dict (list string)) : res (list string) :=
  let risks1 :=
    if Nat.ltb 1 (length published_ports)
    then ["Multiple published ports - may need separate routers"] else [] in
  exposed <- get_exposed_ports container ;;
  let risks2 :=
    flat_map (fun port =>
                if is_http_port port then []
                else ["Non-HTTP port " ++ PyStr.split_head "/"%char port
                        ++ " - may need TCP/UDP router"])
      exposed in
  labels <- config_field container "Labels" (PDict []) ;;
  keys <- py_iter labels ;;
  auth <- any_key_contains "auth" keys ;;
  let risks3 :=
    if auth then ["May have authentication requirements"] else [] in
  image <- image_lower container ;;
  let risks4 :=
    flat_map (fun svc =>
                if PyStr.contains svc image
                then ["Stateful database service - typically not proxied"]
                else [])
      stateful in
  Ok (risks1 ++ risks2 ++ risks3 ++ risks4)%list.

(* ====================================================================== *)
(** * The script: manifest assembly (the loop of [main]) *)

(** An element of the manifest's [reverse_proxies] list. It has no
    classification, candidacy or recommendation fields. *)
Record rp_entry : Type := {
  rp_container_id : pyval;
  rp_container_name : string;
  rp_image : pyval;
  rp_status : pyval;
  rp_networks : list string;
  rp_published_ports : dict (list string)
}.

(** An element of the manifest's [containers] list. *)
Record analysis_entry : Type := {
  e_container_id : pyval;
  e_container_name : string;
  e_image : pyval;
  e_status : pyval;
  e_networks : list string;
  e_published_ports : dict (list string);
  e_exposed_ports : list string;
  e_detected_proxy_signals : proxy_signals;
  e_classification : string;
  e_candidate_for_migration : bool;
  e_migration_reason : string;
  e_recommended_labels : dict string;
  e_recommended_hostnames : list string;
  e_risks_notes : list string
}.

(** [container['State']['Status']] *)
Definition container_status (container : pyval) : res pyval :=
  state <- py_getitem container "State" ;;
  py_getitem state "Status".

(** The body of [for container in containers:], which ends either in the
    [reverse_proxies.append(...)] branch or in [inventory.append(entry)]. *)
Definition analyze_container (container : pyval)
  : res (rp_entry + analysis_entry) :=
  id <- py_getitem container "Id" ;;
  c_id <- py_slice_to 12 id ;;
  name <- container_name container ;;
  image <- container_image container ;;
  status <- container_status container ;;
  networks <- container_networks container ;;
  rp <- is_reverse_proxy container ;;
  if rp then
    published <- get_published_ports container ;;
    Ok (inl {| rp_container_id := c_id; rp_container_name := name;
               rp_image := image; rp_status := status;
               rp_networks := networks; rp_published_ports := published |})
  else
    signals <- detect_proxy_signals container ;;
    published_ports <- get_published_ports container ;;
    exposed_ports <- get_exposed_ports container ;;
    classification <- classify_container container ;;
    ' (is_candidate, reason) <-
        is_candidate_for_migration container classification ;;
    risks <- analyze_risks container published_ports ;;
    labels <- (if is_candidate then generate_recommended_labels container
               else Ok []) ;;
    Ok (inr {| e_container_id := c_id; e_container_name := name;
               e_image := image; e_status := status; e_networks := networks;
               e_published_ports := published_ports;
               e_exposed_ports := exposed_ports;
               e_detected_proxy_signals := signals;
               e_classification := classification;
               e_candidate_for_migration := is_candidate;
               e_migration_reason := reason;
               e_recommended_labels := labels;
               e_recommended_hostnames :=
                 if is_candidate then [name ++ ".local"] else [];
               e_risks_notes := risks |}).

Fixpoint main_loop (containers : list pyval)
    (reverse_proxies : list rp_entry) (inventory : list analysis_entry)
  : res (list rp_entry * list analysis_entry) :=
  match containers with
  | [] => Ok (reverse_proxies, inventory)
  | container :: rest =>
      r <- analyze_container container ;;
      match r with
      | inl rp => main_loop rest (reverse_proxies ++ [rp])%list inventory
      | inr entry => main_loop rest reverse_proxies (inventory ++ [entry])%list
      end
  end.

(** The manifest, without its generation time stamp. *)
Record manifest : Type := {
  total_containers : nat;
  reverse_proxies_detected : nat;
  by_classification : dict nat;
  migration_candidates : nat;
  reverse_proxies : list rp_entry;
  containers : list analysis_entry
}.

Definition count_step (acc : dict nat * nat) (entry : analysis_entry)
  : dict nat * nat :=
  let (by_cls, candidates) := acc in
  let cls := e_classification entry in
  let n := match dict_get cls by_cls with Some n => n | None => 0 end in
  (dict_set cls (n + 1) by_cls,
   if e_candidate_for_migration entry then candidates + 1 else candidates).

Definition build_manifest (snapshot : list pyval) : res manifest :=
  ' (rps, inventory) <- main_loop snapshot [] [] ;;
  let (by_cls, candidates) := fold_left count_step inventory ([], 0) in
  Ok {| total_containers := length inventory;
        reverse_proxies_detected := length rps;
        by_classification := by_cls;
        migration_candidates := candidates;
        reverse_proxies := rps;
        containers := inventory |}.

(* ====================================================================== *)
(** * Well-formed container records

    What the inspection command produces, as far as the script reads it:
    [Name] and [Config.Image] are strings; [Config.Labels] maps to strings,
    [Config.Env] is a list of strings, [Config.ExposedPorts] and
    [NetworkSettings.Networks] are mappings, [NetworkSettings.Ports] maps
    each port to [null] or to a list of bindings with a host address and a
    host port; each of these five may be missing or [null], and so may the
    [NetworkSettings] mapping as a whole be missing. *)

Definition is_str (v : pyval) : bool :=
  match v with PStr _ => true | _ => false end.

Definition is_dict (v : pyval) : bool :=
  match v with PDict _ => true | _ => false end.

Definition absent_null_or (p : pyval -> bool) (o : option pyval) : bool :=
  match o with
  | None => true
  | Some PNone => true
  | Some v => p v
  end.

Definition str_valued (v : pyval) : bool :=
  match v with
  | PDict d => forallb (fun kv => is_str (snd kv)) d
  | _ => false
  end.

Definition str_list (v : pyval) : bool :=
  match v with
  | PList l => forallb is_str l
  | _ => false
  end.

Definition binding_ok (b : pyval) : bool :=
  match b with
  | PDict d => dict_has "HostIp" d && dict_has "HostPort" d
  | _ => false
  end.

Definition bindings_ok (v : pyval) : bool :=
  match v with
  | PNone => true
  | PList l => forallb binding_ok l
  | _ => false
  end.

Definition ports_ok (v : pyval) : bool :=
  match v with
  | PDict d => forallb (fun kv => bindings_ok (snd kv)) d
  | _ => false
  end.

Definition config_ok (o : option pyval) : bool :=
  match o with
  | Some (PDict cfg) =>
      match dict_get "Image" cfg with Some (PStr _) => true | _ => false end
      && absent_null_or str_valued (dict_get "Labels" cfg)
      && absent_null_or str_list (dict_get "Env" cfg)
      && absent_null_or is_dict (dict_get "ExposedPorts" cfg)
  | _ => false
  end.

Definition network_settings_ok (o : option pyval) : bool :=
  match o with
  | None => true
  | Some (PDict ns) =>
      absent_null_or ports_ok (dict_get "Ports" ns)
      && absent_null_or is_dict (dict_get "Networks" ns)
  | _ => false
  end.

Definition well_typed (container : pyval) : bool :=
  match container with
  | PDict d =>
      match dict_get "Name" d with Some (PStr _) => true | _ => false end
      && config_ok (dict_get "Config" d)
      && network_settings_ok (dict_get "NetworkSettings" d)
  | _ => false
  end.

(** A record as [main] needs it: it also reads [Id] and [State.Status]. *)
Definition inspected (container : pyval) : bool :=
  well_typed container
  && match py_getitem container "Id" with Ok (PStr _) => true | _ => false end
  && is_ok (container_status container).

(* ====================================================================== *)
(** * Sample records *)

Module Samples.

Definition binding (ip port : string) : pyval :=
  PDict [("HostIp", PStr ip); ("HostPort", PStr port)].

Definition strs (d : list (string * string)) : pyval :=
  PDict (map (fun kv => (fst kv, PStr (snd kv))) d).

Definition keys_only (l : list string) : pyval :=
  PDict (map (fun k => (k, PDict [])) l).

(** A record with every section present. *)
Definition record (id name image status : string)
    (labels : list (string * string)) (env : list string)
    (exposed : list string) (ports : list (string * pyval))
    (nets : list string) : pyval :=
  PDict [("Id", PStr id); ("Name", PStr name);
         ("State", PDict [("Status", PStr status)]);
         ("Config", PDict [("Image", PStr image); ("Labels", strs labels);
                           ("Env", PList (map PStr env));
                           ("ExposedPorts", keys_only exposed)]);
         ("NetworkSettings", PDict [("Ports", PDict ports);
                                    ("Networks", keys_only nets)])].

(** The API container of the specification's examples. *)
Definition api : pyval :=
  record "0123456789abcdef" "/my-api.v1" "myapp/api:1.0" "running" [] []
    ["8080/tcp"] [("8080/tcp", PList [binding "0.0.0.0" "8080"])] ["bridge"].

(** The same image when it also declares port 80, which is not published. *)
Definition api_exposing_80 : pyval :=
  record "0123456789abcdef" "/my-api.v1" "myapp/api:1.0" "running" [] []
    ["80/tcp"; "8080/tcp"]
    [("80/tcp", PNone); ("8080/tcp", PList [binding "0.0.0.0" "8080"])]
    ["bridge"].

Definition redis : pyval :=
  record "fedcba9876543210" "/cache" "redis:7" "exited" [] ["PATH=/usr/bin"]
    ["6379/tcp"] [("6379/tcp", PNone)] ["backend"].

Definition traefik : pyval :=
  record "aaaa" "/edge" "traefik:v2.10" "running" [] []
    ["80/tcp"; "443/tcp"]
    [("80/tcp", PList [binding "" "80"]); ("443/tcp", PList [binding "" "443"])]
    ["edge"].

(** Only the mandatory fields. *)
Definition bare : pyval :=
  PDict [("Name", PStr "/bare"); ("Config", PDict [("Image", PStr "busybox")])].

(** Every optional section present and [null]. *)
Definition nulls : pyval :=
  PDict [("Name", PStr "/nulls");
         ("Config", PDict [("Image", PStr "busybox"); ("Labels", PNone);
                           ("Env", PNone); ("ExposedPorts", PNone)]);
         ("NetworkSettings", PDict [("Ports", PNone); ("Networks", PNone)])].

(** Traefik labels with routing enabled, on an ordinary network. *)
Definition enabled : pyval :=
  record "bbbb" "/blog" "ghost:5" "running"
    [("traefik.enable", "True");
     ("traefik.http.routers.blog.rule", "Host(`blog.example`)")]
    [] ["2368/tcp"] [("2368/tcp", PNone)] ["backend"].

(** Traefik labels left behind with routing switched off, with and without
    a published port. *)
Definition stray_published : pyval :=
  record "cccc" "/wiki" "wikijs:2" "running"
    [("traefik.enable", "false");
     ("traefik.http.routers.wiki.rule", "Host(`wiki.example`)")]
    [] ["3000/tcp"] [("3000/tcp", PList [binding "0.0.0.0" "3000"])]
    ["backend"].

Definition stray_internal : pyval :=
  record "dddd" "/wiki2" "wikijs:2" "exited"
    [("traefik.enable", "false");
     ("traefik.http.routers.wiki.rule", "Host(`wiki.example`)")]
    [] ["3000/tcp"] [("3000/tcp", PNone)] ["backend"].

(** A plain web server publishing 80 and 443. *)
Definition webserver : pyval :=
  record "eeee" "/www" "httpd:2.4" "running" [("maintainer", "ops")] []
    ["80/tcp"; "443/tcp"]
    [("80/tcp", PList [binding "0.0.0.0" "80"]);
     ("443/tcp", PList [binding "0.0.0.0" "443"])]
    ["bridge"].

(** A relabelled Traefik build publishing 80 and 443. *)
Definition custom_edge : pyval :=
  record "ffff" "/gw" "registry.local/edge-router:3" "running"
    [("com.example.Traefik.version", "3")] []
    ["80/tcp"; "443/tcp"]
    [("80/tcp", PList [binding "0.0.0.0" "80"]);
     ("443/tcp", PList [binding "0.0.0.0" "443"])]
    ["bridge"].

(** Labels of several kinds and an environment with a repeated variable. *)
Definition mixed : pyval :=
  record "9999" "/shop" "shop:1" "running"
    [("traefik.enable", "false"); ("caddy", "shop.example");
     ("maintainer", "ops"); ("x.Caddy.Reverse_Proxy", "{{upstreams}}")]
    ["VIRTUAL_HOST=a.example"; "PATH=/bin"; "VIRTUAL_HOST=b.example";
     "LETSENCRYPT_EMAIL=ops@shop.example"]
    ["80/tcp"; "9100/tcp"]
    [("80/tcp", PList [binding "0.0.0.0" "8081"; binding "::" "8081"]);
     ("9100/tcp", PNone); ("443/tcp", PList [])]
    ["backend"; "Edge-Net"].

End Samples.

(* ====================================================================== *)
(** * Definitions used to state the results *)

(** What the script's accessors return on a record: its name, lower-cased
    image reference, label mapping, environment list, exposed-port mapping,
    port mapping and network mapping. *)
Record view : Type := {
  v_name : string;
  v_image : string;
  v_labels : dict pyval;
  v_env : list pyval;
  v_exposed : dict pyval;
  v_ports : dict pyval;
  v_networks : dict pyval
}.

Record reads (c : pyval) (v : view) : Prop := {
  r_name : container_name c = Ok (v_name v);
  r_image : image_lower c = Ok (v_image v);
  r_labels : config_field c "Labels" (PDict []) = Ok (PDict (v_labels v));
  r_env : config_field c "Env" (PList []) = Ok (PList (v_env v));
  r_exposed :
    config_field c "ExposedPorts" (PDict []) = Ok (PDict (v_exposed v));
  r_ports : network_setting c "Ports" = Ok (PDict (v_ports v));
  r_networks : network_setting c "Networks" = Ok (PDict (v_networks v));
  r_labels_str : forallb (fun kv => is_str (snd kv)) (v_labels v) = true;
  r_env_str : forallb is_str (v_env v) = true;
  r_ports_ok : forallb (fun kv => bindings_ok (snd kv)) (v_ports v) = true
}.

(** The three scans of [detect_proxy_signals], given the label items and
    the parsed environment. *)
Definition signals_of (labels : dict pyval) (env : dict string)
  : proxy_signals :=
  fold_left caddy_step labels
    (fold_left (nginx_step env) nginx_proxy_vars
       (fold_left traefik_step labels no_signals)).

(** Whether a port has a true value in the raw port mapping:
    [port in ports and ports[port]]. *)
Definition bound (ports : dict pyval) (port : string) : bool :=
  truthy (match dict_get port ports with Some x => x | None => PBool false end).

(** The decision of [is_reverse_proxy] in terms of what it read. *)
Definition reverse_proxy_rule (v : view) : bool :=
  existsb (fun proxy_image => PyStr.contains proxy_image (v_image v))
    REVERSE_PROXY_IMAGES
  || (bound (v_ports v) "80/tcp" && bound (v_ports v) "443/tcp"
      && (PyStr.contains "traefik" (v_image v)
          || existsb (fun k => PyStr.contains "traefik" (PyStr.lower k))
               (dict_keys (v_labels v)))).

Definition http_service_rule (v : view) : bool :=
  existsb is_http_port (dict_keys (v_exposed v))
  || existsb (fun pattern => PyStr.contains pattern (v_image v)) web_patterns.

(** The aggregate flag is set exactly when one of the three subsets has an
    entry. *)
Definition flag_agrees (s : proxy_signals) : Prop :=
  has_proxy_signals s =
  nonempty (traefik_labels s) || nonempty (nginx_proxy_env s)
  || nonempty (caddy_labels s).

Definition traefik_values_str (s : proxy_signals) : Prop :=
  forallb (fun kv => is_str (snd kv)) (traefik_labels s) = true.

(** The value of the [traefik.enable] label in the Traefik subset, the
    empty string when there is none. *)
Definition enable_value (s : proxy_signals) : string :=
  match dict_get "traefik.enable" (traefik_labels s) with
  | Some (PStr x) => x
  | _ => ""
  end.

Definition rule1 (s : proxy_signals) (nets : list string) : bool :=
  nonempty (traefik_labels s)
  && (String.eqb (PyStr.lower (enable_value s)) "true"
      || is_in_proxy_network nets).

Definition rule2 (s : proxy_signals) : bool :=
  nonempty (nginx_proxy_env s) || nonempty (caddy_labels s).

Definition classify_rule (s : proxy_signals) (published : dict (list string))
    (nets : list string) : string :=
  if rule1 s nets then "already_proxied_traefik"
  else if rule2 s then "already_proxied_other"
  else if nonempty published && negb (has_proxy_signals s)
  then "exposed_directly"
  else if negb (nonempty published) && negb (has_proxy_signals s)
  then "internal_only"
  else "unknown_needs_review".

(** A port of the raw port mapping that has at least one binding. *)
Definition has_binding (ports : dict pyval) (port : string) : Prop :=
  exists b bs, dict_get port ports = Some (PList (b :: bs)).

(** The key and value an environment entry stands for, if it has an [=]. *)
Definition entry_binding (e : string) : option (string * string) :=
  match PyStr.partition1 "="%char e with
  | (k, Some v) => Some (k, v)
  | (_, None) => None
  end.

(** One turn of the environment loop on an entry that is a string. *)
Definition env_step (env : dict string) (e : string) : dict string :=
  match entry_binding e with
  | Some (k, v) => dict_set k v env
  | None => env
  end.

(** The value the last entry for [k] gives it. *)
Fixpoint last_value (k : string) (entries : list string) : option string :=
  match entries with
  | [] => None
  | e :: rest =>
      match last_value k rest with
      | Some v => Some v
      | None =>
          match entry_binding e with
          | Some (k', v) => if String.eqb k' k then Some v else None
          | None => None
          end
      end
  end.

(** A section of [Config], resp. of [NetworkSettings], as the document has
    it; [missing] when it is not there or is [null]. *)
Definition config_section (c : pyval) (field : string) : option pyval :=
  match c with
  | PDict d =>
      match dict_get "Config" d with
      | Some (PDict cfg) => dict_get field cfg
      | _ => None
      end
  | _ => None
  end.

Definition network_section (c : pyval) (field : string) : option pyval :=
  match c with
  | PDict d =>
      match dict_get "NetworkSettings" d with
      | Some (PDict ns) => dict_get field ns
      | _ => None
      end
  | _ => None
  end.

Definition missing (o : option pyval) : bool :=
  match o with
  | None | Some PNone => true
  | Some _ => false
  end.

(** Two mappings that agree on every key but one. *)
Definition agree_except (key : string) (d d' : dict pyval) : Prop :=
  forall k, k <> key -> dict_get k d = dict_get k d'.

(** Two records that differ at most in [State.Status]. *)
Definition differ_only_in_status (c c' : pyval) : Prop :=
  exists d d' st st',
    c = PDict d /\ c' = PDict d'
    /\ agree_except "State" d d'
    /\ dict_get "State" d = Some (PDict st)
    /\ dict_get "State" d' = Some (PDict st')
    /\ agree_except "Status" st st'.

(** A result of the loop body with another status written into it. *)
Definition with_status (status : pyval) (r : rp_entry + analysis_entry)
  : rp_entry + analysis_entry :=
  match r with
  | inl rp =>
      inl {| rp_container_id := rp_container_id rp;
             rp_container_name := rp_container_name rp;
             rp_image := rp_image rp; rp_status := status;
             rp_networks := rp_networks rp;
             rp_published_ports := rp_published_ports rp |}
  | inr e =>
      inr {| e_container_id := e_container_id e;
             e_container_name := e_container_name e;
             e_image := e_image e; e_status := status;
             e_networks := e_networks e;
             e_published_ports := e_published_ports e;
             e_exposed_ports := e_exposed_ports e;
             e_detected_proxy_signals := e_detected_proxy_signals e;
             e_classification := e_classification e;
             e_candidate_for_migration := e_candidate_for_migration e;
             e_migration_reason := e_migration_reason e;
             e_recommended_labels := e_recommended_labels e;
             e_recommended_hostnames := e_recommended_hostnames e;
             e_risks_notes := e_risks_notes e |}
  end.

(** The two lists the results of the loop body are appended to. *)
Fixpoint rp_entries (rs : list (rp_entry + analysis_entry)) : list rp_entry :=
  match rs with
  | [] => []
  | inl rp :: t => rp :: rp_entries t
  | inr _ :: t => rp_entries t
  end.

Fixpoint analysis_entries (rs : list (rp_entry + analysis_entry))
  : list analysis_entry :=
  match rs with
  | [] => []
  | inl _ :: t => analysis_entries t
  | inr e :: t => e :: analysis_entries t
  end.

(** How the loop body's result tells the detector's answer. *)
Definition sorted_by_detector (c : pyval) (r : rp_entry + analysis_entry)
  : Prop :=
  analyze_container c = Ok r
  /\ match r with
     | inl _ => is_reverse_proxy c = Ok true
     | inr e =>
         is_reverse_proxy c = Ok false
         /\ classify_container c = Ok (e_classification e)
     end.

(** The key of the recommended label that carries the load-balancer port. *)
Definition port_label (name : string) : string :=
  "traefik.http.services." ++ safe_name name ++ ".loadbalancer.server.port".

(** The five categories the classifier's documentation lists. *)
Definition CLASSIFICATIONS : list string :=
  ["already_proxied_traefik"; "already_proxied_other"; "exposed_directly";
   "internal_only"; "unknown_needs_review"].

(** The tests the two label scans apply to a key. *)
Definition is_traefik_label (k : string) : bool :=
  PyStr.startswith k "traefik.".

Definition is_caddy_label (k : string) : bool :=
  PyStr.startswith k "caddy"
  || PyStr.contains "caddy.reverse_proxy" (PyStr.lower k).

(** The recognised nginx-proxy variables an environment defines, in the
    order the script looks them up. *)
Definition nginx_subset (env : dict string) : dict string :=
  flat_map (fun var => match dict_get var env with
                       | Some v => [(var, v)]
                       | None => []
                       end)
    nginx_proxy_vars.

(** A published entry against the raw entry it comes from: same port, a
    non-empty list of bindings, one rendered address per binding. *)
Definition published_from (raw : string * pyval)
    (entry : string * list string) : Prop :=
  fst entry = fst raw
  /\ exists bs, snd raw = PList bs /\ bs <> []
                /\ map_res format_binding bs = Ok (snd entry)
                /\ length (snd entry) = length bs.

(** Counting the entries of a classification, and the candidates. *)
Definition count_classified (cls : string) (inventory : list analysis_entry)
  : nat :=
  length (filter (fun e => String.eqb (e_classification e) cls) inventory).

Definition count_candidates (inventory : list analysis_entry) : nat :=
  length (filter e_candidate_for_migration inventory).

(** The count a classification has in the summary, 0 when it has no key. *)
Definition summary_count (cls : string) (by_cls : dict nat) : nat :=
  match dict_get cls by_cls with Some n => n | None => 0 end.

Definition sum_counts (by_cls : dict nat) : nat :=
  fold_right (fun kv acc => snd kv + acc) 0 by_cls.

(** The notes [analyze_risks] can write. *)
Definition multiple_ports_note : string :=
  "Multiple published ports - may need separate routers".

Definition non_http_note (port : string) : string :=
  "Non-HTTP port " ++ PyStr.split_head "/"%char port
    ++ " - may need TCP/UDP router".

Definition auth_note : string := "May have authentication requirements".

Definition stateful_note : string :=
  "Stateful database service - typically not proxied".

(* ====================================================================== *)
(** * Dictionaries and the error monad: basic facts *)


Lemma bind_inv {A B : Type} (m : res A) (k : A -> res B) (b : B) :
  bind m k = Ok b -> exists a, m = Ok a /\ k a = Ok b.
Proof. destruct m as [a|e]; simpl; [eauto | discriminate]. Qed.

Lemma dict_get_set {V : Type} (k k' : string) (v : V) (d : dict V) :
  dict_get k (dict_set k' v d) =
  if String.eqb k' k then Some v else dict_get k d.
Proof.
  induction d as [|[k0 v0] t IH]; simpl.
  - reflexivity.
  - destruct (String.eqb k0 k') eqn:E0; simpl.
    + apply String.eqb_eq in E0. subst k0.
      destruct (String.eqb k' k); reflexivity.
    + destruct (String.eqb k0 k) eqn:E1.
      * apply String.eqb_eq in E1. subst k0.
        rewrite String.eqb_sym, E0. reflexivity.
      * exact IH.
Qed.

Lemma dict_set_nonempty {V : Type} (k : string) (v : V) (d : dict V) :
  nonempty (dict_set k v d) = true.
Proof.
  destruct d as [|[k0 v0] t]; simpl; [reflexivity|].
  destruct (String.eqb k0 k); reflexivity.
Qed.


Lemma dict_set_forall {V : Type} (p : V -> bool) (k : string) (v : V)
    (d : dict V) :
  p v = true ->
  forallb (fun kv => p (snd kv)) d = true ->
  forallb (fun kv => p (snd kv)) (dict_set k v d) = true.
Proof.
  intros Hv. induction d as [|[k0 v0] t IH]; simpl.
  - rewrite Hv. reflexivity.
  - intros H. apply andb_prop in H. destruct H as [H0 Ht].
    destruct (String.eqb k0 k); simpl.
    + rewrite Hv, Ht. reflexivity.
    + rewrite H0, (IH Ht). reflexivity.
Qed.

Lemma dict_get_forall {V : Type} (p : V -> bool) (k : string) (v : V)
    (d : dict V) :
  forallb (fun kv => p (snd kv)) d = true ->
  dict_get k d = Some v -> p v = true.
Proof.
  induction d as [|[k0 v0] t IH]; simpl; [discriminate|].
  intros H. apply andb_prop in H. destruct H as [H0 Ht].
  destruct (String.eqb k0 k).
  - intros [= <-]. exact H0.
  - auto.
Qed.

Lemma dict_get_In {V : Type} (k : string) (v : V) (d : dict V) :
  dict_get k d = Some v -> In (k, v) d.
Proof.
  induction d as [|[k0 v0] t IH]; simpl; [discriminate|].
  destruct (String.eqb k0 k) eqn:E.
  - apply String.eqb_eq in E. intros [= <-]. left. congruence.
  - auto.
Qed.

Lemma dict_has_keys {V : Type} (k : string) (d : dict V) :
  dict_has k d = true <-> In k (dict_keys d).
Proof.
  unfold dict_has, dict_keys.
  induction d as [|[k0 v0] t IH]; simpl.
  - split; [discriminate | tauto].
  - destruct (String.eqb k0 k) eqn:E.
    + apply String.eqb_eq in E. tauto.
    + apply String.eqb_neq in E. tauto.
Qed.

(* ====================================================================== *)
(** * Reading a well-formed record *)

(** A missing or [null] section reads as the empty default. *)
Lemma absent_null_or_default (p : pyval -> bool) (o : option pyval)
    (dflt : pyval) :
  absent_null_or p o = true -> truthy dflt = false -> p dflt = true ->
  p (py_or (match o with Some x => x | None => dflt end) dflt) = true.
Proof.
  intros Ho Hd Hp. unfold py_or.
  destruct o as [x|].
  - destruct (truthy x) eqn:Ex; [|exact Hp].
    destruct x; simpl in *; try exact Ho; discriminate.
  - rewrite Hd. exact Hp.
Qed.

Lemma str_valued_inv (x : pyval) :
  str_valued x = true ->
  exists d, x = PDict d /\ forallb (fun kv => is_str (snd kv)) d = true.
Proof. destruct x; simpl; try discriminate. eauto. Qed.

Lemma str_list_inv (x : pyval) :
  str_list x = true -> exists l, x = PList l /\ forallb is_str l = true.
Proof. destruct x; simpl; try discriminate. eauto. Qed.

Lemma is_dict_inv (x : pyval) : is_dict x = true -> exists d, x = PDict d.
Proof. destruct x; simpl; try discriminate. eauto. Qed.

Lemma ports_ok_inv (x : pyval) :
  ports_ok x = true ->
  exists d, x = PDict d /\ forallb (fun kv => bindings_ok (snd kv)) d = true.
Proof. destruct x; simpl; try discriminate. eauto. Qed.

Lemma network_setting_ok (d : dict pyval) (field : string) (p : pyval -> bool) :
  (forall ns, dict_get "NetworkSettings" d = Some (PDict ns) ->
              absent_null_or p (dict_get field ns) = true) ->
  match dict_get "NetworkSettings" d with
  | None | Some (PDict _) => True
  | _ => False
  end ->
  p (PDict []) = true ->
  exists x, network_setting (PDict d) field = Ok x /\ p x = true.
Proof.
  intros Hf Hns Hp. unfold network_setting. simpl.
  destruct (dict_get "NetworkSettings" d) as [ns|]; simpl.
  - destruct ns; try contradiction. simpl.
    eexists; split; [reflexivity|].
    apply absent_null_or_default; auto.
  - eexists; split; [reflexivity|]. exact Hp.
Qed.

Theorem well_typed_reads (c : pyval) :
  well_typed c = true -> exists v, reads c v.
Proof.
  destruct c as [| | | | |d]; simpl; try discriminate.
  destruct (dict_get "Name" d) as [[| | |name| |]|] eqn:EN; simpl;
    try discriminate.
  destruct (dict_get "Config" d) as [[| | | | |cfg]|] eqn:EC; simpl;
    try discriminate.
  destruct (dict_get "Image" cfg) as [[| | |image| |]|] eqn:EI; simpl;
    try discriminate.
  intros H.
  apply andb_prop in H. destruct H as [H HNS].
  apply andb_prop in H. destruct H as [H HX].
  apply andb_prop in H. destruct H as [HL HE].
  pose proof (absent_null_or_default _ _ (PDict []) HL eq_refl eq_refl) as HL'.
  pose proof (absent_null_or_default _ _ (PList []) HE eq_refl eq_refl) as HE'.
  pose proof (absent_null_or_default _ _ (PDict []) HX eq_refl eq_refl) as HX'.
  apply str_valued_inv in HL'. destruct HL' as (labels & EL & HLs).
  apply str_list_inv in HE'. destruct HE' as (env & EE & HEs).
  apply is_dict_inv in HX'. destruct HX' as (exposed & EX).
  destruct (network_setting_ok d "Ports" ports_ok) as (ports & EP & HP).
  { intros ns Hns. rewrite Hns in HNS. simpl in HNS.
    apply andb_prop in HNS. tauto. }
  { destruct (dict_get "NetworkSettings" d) as [[]|]; simpl in HNS;
      try discriminate; exact I. }
  { reflexivity. }
  destruct (network_setting_ok d "Networks" is_dict) as (nets & ENt & HN).
  { intros ns Hns. rewrite Hns in HNS. simpl in HNS.
    apply andb_prop in HNS. tauto. }
  { destruct (dict_get "NetworkSettings" d) as [[]|]; simpl in HNS;
      try discriminate; exact I. }
  { reflexivity. }
  apply ports_ok_inv in HP. destruct HP as (pd & -> & HPs).
  apply is_dict_inv in HN. destruct HN as (nd & ->).
  exists {| v_name := PyStr.lstrip "/"%char name; v_image := PyStr.lower image;
            v_labels := labels; v_env := env; v_exposed := exposed;
            v_ports := pd; v_networks := nd |}.
  constructor; simpl; auto.
  - unfold container_name. simpl. rewrite EN. reflexivity.
  - unfold image_lower, container_image. simpl. rewrite EC. simpl.
    rewrite EI. reflexivity.
  - unfold config_field. simpl. rewrite EC. simpl. rewrite EL. reflexivity.
  - unfold config_field. simpl. rewrite EC. simpl. rewrite EE. reflexivity.
  - unfold config_field. simpl. rewrite EC. simpl. rewrite EX. reflexivity.
Qed.

(* ====================================================================== *)
(** * What each function computes on a well-formed record *)

Section OnView.

Variables (c : pyval) (v : view).
Hypothesis R : reads c v.

Lemma get_exposed_ports_reads :
  get_exposed_ports c = Ok (dict_keys (v_exposed v)).
Proof. unfold get_exposed_ports. rewrite (r_exposed _ _ R). reflexivity. Qed.

Lemma container_networks_reads :
  container_networks c = Ok (dict_keys (v_networks v)).
Proof. unfold container_networks. rewrite (r_networks _ _ R). reflexivity. Qed.

End OnView.

Lemma map_res_format_binding (bs : list pyval) :
  forallb binding_ok bs = true ->
  exists strs, map_res format_binding bs = Ok strs
               /\ length strs = length bs.
Proof.
  induction bs as [|b t IH]; simpl; intros H.
  - exists []. auto.
  - apply andb_prop in H. destruct H as [Hb Ht].
    destruct (IH Ht) as (strs & -> & Hlen).
    destruct b as [| | | | |d]; simpl in Hb; try discriminate.
    apply andb_prop in Hb. destruct Hb as [Hip Hport].
    unfold format_binding, dict_has in *. simpl.
    destruct (dict_get "HostIp" d); [|discriminate].
    destruct (dict_get "HostPort" d); [|discriminate].
    simpl. eexists. split; [reflexivity|]. simpl. congruence.
Qed.

(** The value stored for a port is [null] or a list of bindings, so it is
    true exactly when it is a list with a binding in it. *)
Lemma bindings_truthy (x : pyval) :
  bindings_ok x = true -> truthy x = true ->
  exists b bs, x = PList (b :: bs) /\ forallb binding_ok (b :: bs) = true.
Proof.
  destruct x as [| | | |l|]; simpl; try discriminate.
  destruct l as [|b bs]; [discriminate|]. eauto.
Qed.

Lemma published_loop_ok (items : dict pyval) :
  forallb (fun kv => bindings_ok (snd kv)) items = true ->
  forall acc, exists p, published_loop items acc = Ok p.
Proof.
  induction items as [|[port x] t IH]; simpl; intros H acc.
  - eauto.
  - apply andb_prop in H. destruct H as [Hx Ht].
    destruct (truthy x) eqn:Ex; [|apply IH; exact Ht].
    destruct (bindings_truthy x Hx Ex) as (b & bs & -> & Hbs).
    destruct (map_res_format_binding _ Hbs) as (strs & Estrs & _).
    simpl py_iter. cbv beta iota delta [bind].
    rewrite Estrs. apply IH. exact Ht.
Qed.

(** The keys of the result: those it started with and the ports whose
    value is true. *)
Lemma published_loop_keys (items : dict pyval) :
  forall acc p, published_loop items acc = Ok p ->
  forall k, dict_has k p = true <->
            dict_has k acc = true
            \/ exists x, In (k, x) items /\ truthy x = true.
Proof.
  induction items as [|[port x] t IH]; simpl; intros acc p H k.
  - injection H as <-. split; [tauto|]. intros [?|(? & [] & _)]. assumption.
  - destruct (truthy x) eqn:Ex.
    + apply bind_inv in H. destruct H as (bs & _ & H).
      apply bind_inv in H. destruct H as (strs & _ & H).
      rewrite (IH _ _ H k). unfold dict_has at 1. rewrite dict_get_set.
      destruct (String.eqb port k) eqn:E.
      * apply String.eqb_eq in E. subst port. split; [|tauto].
        intros _. right. exists x. auto.
      * fold (dict_has k acc). apply String.eqb_neq in E.
        split.
        -- intros [?|(y & Hy & Ty)]; [tauto|]. right. exists y. auto.
        -- intros [?|(y & [Hy|Hy] & Ty)]; [tauto| |].
           ++ congruence.
           ++ right. eauto.
    + rewrite (IH _ _ H k). split.
      * intros [?|(y & Hy & Ty)]; [tauto|]. right. exists y. auto.
      * intros [?|(y & [Hy|Hy] & Ty)]; [tauto| |].
        -- congruence.
        -- right. eauto.
Qed.


(** [sep in s] holds exactly when splitting at [sep] leaves a second piece. *)
Lemma contains_char (sep : ascii) (s : string) :
  PyStr.contains (String sep EmptyString) s =
  match snd (PyStr.partition1 sep s) with Some _ => true | None => false end.
Proof.
  induction s as [|a s IH]; simpl; [reflexivity|].
  rewrite (Ascii.eqb_sym sep a).
  destruct (Ascii.eqb a sep); simpl; [reflexivity|].
  rewrite IH. destruct (PyStr.partition1 sep s). reflexivity.
Qed.

Lemma parse_env_ok (l : list pyval) :
  forallb is_str l = true ->
  forall acc, exists env, parse_env l acc = Ok env.
Proof.
  induction l as [|e t IH]; simpl; intros H acc.
  - eauto.
  - apply andb_prop in H. destruct H as [He Ht].
    destruct e as [| | |s| |]; simpl in He; try discriminate.
    simpl. rewrite contains_char. unfold PyStr.split1.
    destruct (PyStr.partition1 "="%char s) as [k [r|]]; simpl;
      apply IH; exact Ht.
Qed.

Lemma any_key_contains_keys (pat : string) (d : dict pyval) :
  any_key_contains pat (map (fun kv => PStr (fst kv)) d) =
  Ok (existsb (fun k => PyStr.contains pat (PyStr.lower k)) (dict_keys d)).
Proof.
  unfold any_key_contains, dict_keys.
  induction d as [|[k x] t IH]; simpl; [reflexivity|].
  destruct (PyStr.contains pat (PyStr.lower k)); [reflexivity | exact IH].
Qed.

Lemma port_bound_dict (ports : dict pyval) (port : string) :
  exists x, port_bound (PDict ports) port = Ok x
            /\ truthy x = bound ports port.
Proof.
  unfold port_bound, bound, py_contains, py_getitem, dict_has, bind.
  destruct (dict_get port ports) as [x|]; eexists; split; reflexivity.
Qed.

Section Results.

Variables (c : pyval) (v : view).
Hypothesis R : reads c v.

Lemma get_published_ports_reads :
  exists p, get_published_ports c = Ok p
            /\ published_loop (v_ports v) [] = Ok p.
Proof.
  unfold get_published_ports. rewrite (r_ports _ _ R). simpl.
  destruct (published_loop_ok _ (r_ports_ok _ _ R) []) as (p & Hp).
  eauto.
Qed.

Lemma detect_proxy_signals_reads :
  exists env, parse_env (v_env v) [] = Ok env
              /\ detect_proxy_signals c = Ok (signals_of (v_labels v) env).
Proof.
  destruct (parse_env_ok _ (r_env_str _ _ R) []) as (env & Henv).
  exists env. split; [exact Henv|].
  unfold detect_proxy_signals.
  rewrite (r_labels _ _ R), (r_env _ _ R). simpl. rewrite Henv. reflexivity.
Qed.

Lemma is_reverse_proxy_reads :
  is_reverse_proxy c = Ok (reverse_proxy_rule v).
Proof.
  unfold is_reverse_proxy, reverse_proxy_rule.
  rewrite (r_image _ _ R). cbn [bind].
  destruct (existsb _ REVERSE_PROXY_IMAGES); [reflexivity|].
  rewrite (r_ports _ _ R). cbn [bind].
  destruct (port_bound_dict (v_ports v) "80/tcp") as (x80 & -> & T80).
  destruct (port_bound_dict (v_ports v) "443/tcp") as (x443 & -> & T443).
  cbn [bind]. rewrite T80, T443.
  destruct (bound (v_ports v) "80/tcp" && bound (v_ports v) "443/tcp");
    [|reflexivity].
  rewrite (r_labels _ _ R). cbn [bind orb andb].
  destruct (PyStr.contains "traefik" (v_image v)); [reflexivity|].
  cbn [py_iter bind orb]. rewrite any_key_contains_keys. cbn [bind].
  destruct (existsb _ (dict_keys (v_labels v))); reflexivity.
Qed.

Lemma is_http_service_reads :
  is_http_service c = Ok (http_service_rule v).
Proof.
  unfold is_http_service, http_service_rule.
  rewrite (r_image _ _ R), (get_exposed_ports_reads _ _ R). cbn [bind].
  destruct (existsb is_http_port _); [reflexivity|].
  destruct (existsb _ web_patterns); reflexivity.
Qed.

End Results.

(* ====================================================================== *)
(** * Invariants of the extracted signals *)

Lemma fold_left_invariant {A B : Type} (P : A -> Prop) (Q : B -> Prop)
    (f : A -> B -> A) (l : list B) :
  (forall a b, P a -> Q b -> P (f a b)) ->
  Forall Q l -> forall a, P a -> P (fold_left f l a).
Proof.
  intros Hf Hl. induction Hl as [|b t Hb Ht IH]; simpl; intros a Ha.
  - exact Ha.
  - apply IH. apply Hf; assumption.
Qed.

Lemma traefik_step_flag s kv : flag_agrees s -> flag_agrees (traefik_step s kv).
Proof.
  unfold flag_agrees, traefik_step. destruct kv as [k x].
  destruct (PyStr.startswith k "traefik."); cbn [traefik_labels nginx_proxy_env caddy_labels has_proxy_signals]; [|auto].
  intros _. rewrite dict_set_nonempty. reflexivity.
Qed.

Lemma nginx_step_flag env s var :
  flag_agrees s -> flag_agrees (nginx_step env s var).
Proof.
  unfold flag_agrees, nginx_step.
  destruct (dict_get var env); cbn [traefik_labels nginx_proxy_env caddy_labels has_proxy_signals]; [|auto].
  intros _. rewrite dict_set_nonempty, orb_true_r. reflexivity.
Qed.

Lemma caddy_step_flag s kv : flag_agrees s -> flag_agrees (caddy_step s kv).
Proof.
  unfold flag_agrees, caddy_step. destruct kv as [k x].
  destruct (PyStr.startswith k "caddy" || _); cbn [traefik_labels nginx_proxy_env caddy_labels has_proxy_signals]; [|auto].
  intros _. rewrite dict_set_nonempty, orb_true_r. reflexivity.
Qed.

Lemma signals_of_flag (labels : dict pyval) (env : dict string) :
  flag_agrees (signals_of labels env).
Proof.
  unfold signals_of.
  apply fold_left_invariant with (Q := fun _ => True);
    [intros; apply caddy_step_flag; assumption | apply Forall_forall; auto |].
  apply fold_left_invariant with (Q := fun _ => True);
    [intros; apply nginx_step_flag; assumption | apply Forall_forall; auto |].
  apply fold_left_invariant with (Q := fun _ => True);
    [intros; apply traefik_step_flag; assumption | apply Forall_forall; auto |].
  reflexivity.
Qed.

Lemma signals_of_traefik_str (labels : dict pyval) (env : dict string) :
  forallb (fun kv => is_str (snd kv)) labels = true ->
  traefik_values_str (signals_of labels env).
Proof.
  intros Hl. unfold signals_of.
  apply fold_left_invariant with (Q := fun _ => True);
    [| apply Forall_forall; auto |].
  { intros s [k x] Hs _. unfold traefik_values_str, caddy_step in *.
    destruct (PyStr.startswith k "caddy" || _); exact Hs. }
  apply fold_left_invariant with (Q := fun _ => True);
    [| apply Forall_forall; auto |].
  { intros s var Hs _. unfold traefik_values_str, nginx_step in *.
    destruct (dict_get var env); exact Hs. }
  apply fold_left_invariant
    with (Q := fun kv : string * pyval => is_str (snd kv) = true).
  - intros s [k x] Hs Hx. unfold traefik_values_str, traefik_step in *.
    destruct (PyStr.startswith k "traefik."); simpl; [|exact Hs].
    apply dict_set_forall; assumption.
  - apply Forall_forall. intros kv Hin.
    rewrite forallb_forall in Hl. apply Hl. exact Hin.
  - reflexivity.
Qed.

Lemma nginx_fold_keeps (env : dict string) (vars : list string) :
  forall s,
    traefik_labels (fold_left (nginx_step env) vars s) = traefik_labels s
    /\ caddy_labels (fold_left (nginx_step env) vars s) = caddy_labels s.
Proof.
  induction vars as [|var t IH]; intros s; simpl; [auto|].
  destruct (IH (nginx_step env s var)) as [-> ->].
  unfold nginx_step. destruct (dict_get var env); auto.
Qed.

Lemma caddy_fold_keeps (items : dict pyval) :
  forall s,
    traefik_labels (fold_left caddy_step items s) = traefik_labels s.
Proof.
  induction items as [|[k x] t IH]; intros s; cbn [fold_left];
    [reflexivity|].
  rewrite IH. unfold caddy_step.
  destruct (PyStr.startswith k "caddy" || _); reflexivity.
Qed.

Lemma traefik_fold_get (k : string) (items : dict pyval) :
  NoDup (dict_keys items) ->
  forall s,
    dict_get k (traefik_labels (fold_left traefik_step items s)) =
    match dict_get k items with
    | Some x =>
        if PyStr.startswith k "traefik." then Some x
        else dict_get k (traefik_labels s)
    | None => dict_get k (traefik_labels s)
    end.
Proof.
  induction items as [|[k0 x0] t IH]; intros Hnd s; [reflexivity|].
  inversion Hnd as [|? ? Hnotin Hnd']; subst.
  cbn [fold_left dict_get]. rewrite (IH Hnd').
  destruct (String.eqb k0 k) eqn:E.
  - apply String.eqb_eq in E. subst k0.
    destruct (dict_get k t) as [y|] eqn:Ey.
    + exfalso. apply Hnotin. apply dict_has_keys. unfold dict_has.
      rewrite Ey. reflexivity.
    + unfold traefik_step. destruct (PyStr.startswith k "traefik.");
        [|reflexivity].
      cbn [traefik_labels]. rewrite dict_get_set, String.eqb_refl.
      reflexivity.
  - assert (Hs : dict_get k (traefik_labels (traefik_step s (k0, x0)))
                 = dict_get k (traefik_labels s)).
    { unfold traefik_step. destruct (PyStr.startswith k0 "traefik.");
        [|reflexivity].
      cbn [traefik_labels]. rewrite dict_get_set, E. reflexivity. }
    rewrite Hs. reflexivity.
Qed.

(** When the label keys are distinct, as those of a Python dictionary are,
    the Traefik subset holds each [traefik.]-prefixed label with its value;
    in particular [enable_value] is the value of the record's
    [traefik.enable] label. *)
Lemma traefik_labels_lookup (k : string) (labels : dict pyval)
    (env : dict string) :
  NoDup (dict_keys labels) ->
  dict_get k (traefik_labels (signals_of labels env)) =
  if PyStr.startswith k "traefik." then dict_get k labels else None.
Proof.
  intros Hnd. unfold signals_of. rewrite caddy_fold_keeps.
  rewrite (proj1 (nginx_fold_keeps env nginx_proxy_vars _)).
  rewrite (traefik_fold_get k labels Hnd). cbn [no_signals traefik_labels].
  destruct (dict_get k labels); destruct (PyStr.startswith k "traefik.");
    reflexivity.
Qed.

Lemma enable_value_of_labels (labels : dict pyval) (env : dict string) :
  NoDup (dict_keys labels) ->
  enable_value (signals_of labels env) =
  match dict_get "traefik.enable" labels with
  | Some (PStr x) => x
  | _ => ""
  end.
Proof.
  intros Hnd. unfold enable_value. rewrite traefik_labels_lookup by exact Hnd.
  reflexivity.
Qed.

(* ====================================================================== *)
(** * The classifier's decision table *)

Lemma traefik_enabled_str (s : proxy_signals) :
  traefik_values_str s ->
  traefik_enabled (traefik_labels s) =
  Ok (String.eqb (PyStr.lower (enable_value s)) "true").
Proof.
  unfold traefik_values_str, traefik_enabled, enable_value. intros Hs.
  cbn [py_get bind].
  destruct (dict_get "traefik.enable" (traefik_labels s)) as [x|] eqn:E.
  - pose proof (dict_get_forall _ _ _ _ Hs E) as Hx.
    destruct x; try discriminate. reflexivity.
  - reflexivity.
Qed.

Lemma classify_container_rule (c : pyval) (s : proxy_signals)
    (published : dict (list string)) (nets : list string) :
  detect_proxy_signals c = Ok s ->
  get_published_ports c = Ok published ->
  container_networks c = Ok nets ->
  traefik_values_str s ->
  classify_container c = Ok (classify_rule s published nets).
Proof.
  intros Hs Hp Hn Hstr. unfold classify_container, classify_rule, rule1, rule2.
  rewrite Hs, Hp, Hn. cbn [bind].
  rewrite (traefik_enabled_str s Hstr).
  destruct (nonempty (traefik_labels s)); cbn [bind andb].
  - destruct (_ || is_in_proxy_network nets); [reflexivity|].
    destruct (_ || _); [reflexivity|].
    destruct (_ && _); [reflexivity|].
    destruct (_ && _); reflexivity.
  - destruct (_ || _); [reflexivity|].
    destruct (_ && _); [reflexivity|].
    destruct (_ && _); reflexivity.
Qed.

(** On a well-formed record the three extractors succeed, the signals obey
    their invariants and the classifier follows its table. *)
Lemma well_typed_classify (c : pyval) :
  well_typed c = true ->
  exists s published nets,
    detect_proxy_signals c = Ok s
    /\ get_published_ports c = Ok published
    /\ container_networks c = Ok nets
    /\ flag_agrees s /\ traefik_values_str s
    /\ classify_container c = Ok (classify_rule s published nets).
Proof.
  intros W. destruct (well_typed_reads c W) as (v & R).
  destruct (detect_proxy_signals_reads c v R) as (env & _ & Hs).
  destruct (get_published_ports_reads c v R) as (p & Hp & _).
  pose proof (container_networks_reads c v R) as Hn.
  pose proof (signals_of_traefik_str _ env (r_labels_str _ _ R)) as Hstr.
  exists (signals_of (v_labels v) env), p, (dict_keys (v_networks v)).
  repeat split; auto using signals_of_flag, classify_container_rule.
Qed.

(* ====================================================================== *)
(** * Candidacy *)


Lemma is_candidate_reads (c : pyval) (v : view) (classification : string) :
  reads c v ->
  is_candidate_for_migration c classification =
  Ok (if reverse_proxy_rule v then (false, "Container is a reverse proxy")
      else if PyStr.startswith classification "already_proxied"
      then (false, "Already proxied (" ++ classification ++ ")")
      else if String.eqb classification "exposed_directly" then
        if http_service_rule v
        then (true, "HTTP service exposed directly - good migration candidate")
        else (false, "Exposed directly but not an HTTP service")
      else if String.eqb classification "internal_only" then
        if http_service_rule v
        then (true, "Internal HTTP service - could benefit from proxy exposure")
        else (false, "Internal service, not HTTP")
      else (false, "Needs manual review")).
Proof.
  intros R. unfold is_candidate_for_migration.
  rewrite (r_name _ _ R), (is_reverse_proxy_reads _ _ R),
    (is_http_service_reads _ _ R).
  cbn [bind].
  destruct (reverse_proxy_rule v); [reflexivity|].
  destruct (PyStr.startswith classification "already_proxied"); [reflexivity|].
  destruct (String.eqb classification "exposed_directly");
    [destruct (http_service_rule v); reflexivity|].
  destruct (String.eqb classification "internal_only");
    [destruct (http_service_rule v); reflexivity|].
  reflexivity.
Qed.

(** C1. On every well-formed record and for every classification, the
    candidacy decision is positive exactly when the record is not a reverse
    proxy, the classification is [exposed_directly] or [internal_only] and
    the record is an HTTP service. A reverse proxy is refused whatever the
    classification, and so are the [already_proxied...] classifications and
    [unknown_needs_review]. *)
Theorem candidate_iff (c : pyval) (classification : string) :
  well_typed c = true ->
  ((exists reason,
       is_candidate_for_migration c classification = Ok (true, reason))
   <-> is_reverse_proxy c = Ok false
       /\ (classification = "exposed_directly"
           \/ classification = "internal_only")
       /\ is_http_service c = Ok true)
  /\ (is_reverse_proxy c = Ok true ->
      is_candidate_for_migration c classification =
      Ok (false, "Container is a reverse proxy"))
  /\ (PyStr.startswith classification "already_proxied" = true
      \/ classification = "unknown_needs_review" ->
      exists reason,
        is_candidate_for_migration c classification = Ok (false, reason)).
Proof.
  intros W. destruct (well_typed_reads c W) as (v & R).
  rewrite (is_candidate_reads c v classification R),
    (is_reverse_proxy_reads c v R), (is_http_service_reads c v R).
  destruct (reverse_proxy_rule v) eqn:Erp.
  - split; [|split].
    + split.
      * intros (reason & H). discriminate.
      * intros (H & _). discriminate.
    + reflexivity.
    + intros _. eauto.
  - split; [|split].
    + split.
      * intros (reason & H).
        destruct (PyStr.startswith classification "already_proxied");
          [discriminate|].
        destruct (String.eqb classification "exposed_directly") eqn:E1.
        { apply String.eqb_eq in E1.
          destruct (http_service_rule v); [auto | discriminate]. }
        destruct (String.eqb classification "internal_only") eqn:E2.
        { apply String.eqb_eq in E2.
          destruct (http_service_rule v); [auto | discriminate]. }
        discriminate.
      * intros (_ & Hcls & Hhttp). injection Hhttp as ->.
        destruct Hcls as [-> | ->]; cbn; eauto.
    + discriminate.
    + intros [Hpre | ->].
      * rewrite Hpre. eauto.
      * cbn. eauto.
Qed.

Lemma candidate_iff_witness :
  well_typed Samples.api = true
  /\ exists reason,
       is_candidate_for_migration Samples.api "exposed_directly"
       = Ok (true, reason).
Proof.
  split; [reflexivity|].
  apply (candidate_iff Samples.api "exposed_directly"); [reflexivity|].
  repeat split; auto.
Defined.

(* ====================================================================== *)
(** * Classification *)

Lemma flag_off_subsets (s : proxy_signals) :
  flag_agrees s ->
  (has_proxy_signals s = false <->
   traefik_labels s = [] /\ nginx_proxy_env s = [] /\ caddy_labels s = []).
Proof.
  unfold flag_agrees. intros ->.
  destruct (traefik_labels s), (nginx_proxy_env s), (caddy_labels s); simpl;
    split; intros H; try discriminate; auto;
    destruct H as (? & ? & ?); discriminate.
Qed.

(** C2. A well-formed record whose Traefik-label subset is not empty and
    whose [traefik.enable] value is "true" up to letter case is classified
    [already_proxied_traefik], whatever networks it is attached to. *)
Theorem traefik_enable_true (c : pyval) (s : proxy_signals) :
  well_typed c = true ->
  detect_proxy_signals c = Ok s ->
  nonempty (traefik_labels s) = true ->
  PyStr.lower (enable_value s) = "true" ->
  classify_container c = Ok "already_proxied_traefik".
Proof.
  intros W Hs Hne Hen.
  destruct (well_typed_classify c W)
    as (s' & published & nets & Hs' & _ & _ & _ & _ & Hc).
  rewrite Hs in Hs'. injection Hs' as <-.
  rewrite Hc. unfold classify_rule, rule1.
  rewrite Hne, Hen. reflexivity.
Qed.

Lemma traefik_enable_true_witness :
  well_typed Samples.enabled = true
  /\ container_networks Samples.enabled = Ok ["backend"]
  /\ is_in_proxy_network ["backend"] = false
  /\ classify_container Samples.enabled = Ok "already_proxied_traefik".
Proof.
  split; [reflexivity|]. split; [reflexivity|]. split; [reflexivity|].
  eapply (traefik_enable_true Samples.enabled); reflexivity.
Defined.


(** C3, amended. A well-formed record with Traefik labels whose
    [traefik.enable] value is not "true" up to letter case (it may be
    "false", anything else that does not lower-case to "true", or absent),
    attached to
    no proxy network and with no nginx-proxy variable and no Caddy label, is
    classified [unknown_needs_review], not [already_proxied_traefik]; the
    published ports play no part. *)
Theorem traefik_labels_not_enabled (c : pyval) (s : proxy_signals)
    (nets : list string) :
  well_typed c = true ->
  detect_proxy_signals c = Ok s ->
  container_networks c = Ok nets ->
  nonempty (traefik_labels s) = true ->
  PyStr.lower (enable_value s) <> "true" ->
  is_in_proxy_network nets = false ->
  nginx_proxy_env s = [] ->
  caddy_labels s = [] ->
  classify_container c = Ok "unknown_needs_review"
  /\ classify_container c <> Ok "already_proxied_traefik".
Proof.
  intros W Hs Hn Hne Hen Hnet Hng Hca.
  destruct (well_typed_classify c W)
    as (s' & published & nets' & Hs' & _ & Hn' & Hflag & _ & Hc).
  rewrite Hs in Hs'. injection Hs' as <-.
  rewrite Hn in Hn'. injection Hn' as <-.
  assert (Hu : classify_container c = Ok "unknown_needs_review").
  { rewrite Hc. unfold classify_rule, rule1, rule2.
    apply String.eqb_neq in Hen. rewrite Hen, Hnet, Hng, Hca, Hflag, Hne.
    cbn. rewrite !andb_false_r. reflexivity. }
  split; [exact Hu|]. rewrite Hu. discriminate.
Qed.

Lemma traefik_labels_not_enabled_witness :
  (well_typed Samples.stray_published = true
   /\ exists published,
        get_published_ports Samples.stray_published = Ok published
        /\ nonempty published = true
        /\ classify_container Samples.stray_published
           = Ok "unknown_needs_review")
  /\ (well_typed Samples.stray_internal = true
      /\ get_published_ports Samples.stray_internal = Ok []
      /\ classify_container Samples.stray_internal
         = Ok "unknown_needs_review").
Proof.
  split.
  - split; [reflexivity|].
    eexists. split; [reflexivity|]. split; [reflexivity|].
    eapply (traefik_labels_not_enabled Samples.stray_published);
      try reflexivity.
    vm_compute. discriminate.
  - split; [reflexivity|]. split; [reflexivity|].
    eapply (traefik_labels_not_enabled Samples.stray_internal);
      try reflexivity.
    vm_compute. discriminate.
Defined.

(** A value other than "true" that the classifier still takes for it: with
    [traefik.enable] set to "True", no proxy network, no nginx-proxy
    variable and no Caddy label, the record is classified
    [already_proxied_traefik], not [unknown_needs_review]. *)
Lemma enable_True_is_proxied :
  well_typed Samples.enabled = true
  /\ exists s nets,
       detect_proxy_signals Samples.enabled = Ok s
       /\ container_networks Samples.enabled = Ok nets
       /\ nonempty (traefik_labels s) = true
       /\ enable_value s = "True"
       /\ enable_value s <> "true"
       /\ is_in_proxy_network nets = false
       /\ nginx_proxy_env s = []
       /\ caddy_labels s = []
       /\ classify_container Samples.enabled = Ok "already_proxied_traefik"
       /\ classify_container Samples.enabled <> Ok "unknown_needs_review".
Proof.
  split; [reflexivity|].
  do 2 eexists.
  split; [vm_compute; reflexivity|]. split; [vm_compute; reflexivity|].
  split; [reflexivity|]. split; [reflexivity|].
  split; [vm_compute; discriminate|]. split; [reflexivity|].
  split; [reflexivity|]. split; [reflexivity|].
  split; [vm_compute; reflexivity | vm_compute; discriminate].
Qed.


(** C4. On a well-formed record, [unknown_needs_review] is only returned
    when the aggregate flag is set: with the three subsets empty the result
    is [exposed_directly] or [internal_only] according to whether a port is
    published; and with the flag set, no published port and neither rule 1
    nor rule 2 matching, the result is [unknown_needs_review]. *)
Theorem unknown_only_with_signals (c : pyval) (s : proxy_signals)
    (published : dict (list string)) (nets : list string) :
  well_typed c = true ->
  detect_proxy_signals c = Ok s ->
  get_published_ports c = Ok published ->
  container_networks c = Ok nets ->
  (classify_container c = Ok "unknown_needs_review" ->
   has_proxy_signals s = true)
  /\ (traefik_labels s = [] -> nginx_proxy_env s = [] -> caddy_labels s = [] ->
      classify_container c =
      Ok (if nonempty published then "exposed_directly" else "internal_only"))
  /\ (has_proxy_signals s = true -> published = [] ->
      rule1 s nets = false -> rule2 s = false ->
      classify_container c = Ok "unknown_needs_review").
Proof.
  intros W Hs Hp Hn.
  destruct (well_typed_classify c W)
    as (s' & published' & nets' & Hs' & Hp' & Hn' & Hflag & _ & Hc).
  rewrite Hs in Hs'. injection Hs' as <-.
  rewrite Hp in Hp'. injection Hp' as <-.
  rewrite Hn in Hn'. injection Hn' as <-.
  rewrite Hc. unfold classify_rule. split; [|split].
  - destruct (rule1 s nets); [discriminate|].
    destruct (rule2 s); [discriminate|].
    destruct (has_proxy_signals s); [reflexivity|].
    destruct (nonempty published); discriminate.
  - intros Ht Hg Hca.
    assert (Hoff : has_proxy_signals s = false)
      by (apply flag_off_subsets; auto).
    unfold rule1, rule2. rewrite Ht, Hg, Hca, Hoff. cbn.
    destruct (nonempty published); reflexivity.
  - intros Hon -> -> ->. rewrite Hon. reflexivity.
Qed.

Lemma unknown_only_with_signals_witness :
  well_typed Samples.stray_internal = true
  /\ get_published_ports Samples.stray_internal = Ok []
  /\ classify_container Samples.stray_internal = Ok "unknown_needs_review"
  /\ classify_container Samples.api = Ok "exposed_directly"
  /\ classify_container Samples.redis = Ok "internal_only".
Proof.
  split; [reflexivity|]. split; [reflexivity|]. split; [|split].
  - eapply (unknown_only_with_signals Samples.stray_internal);
      reflexivity.
  - refine (proj1 (proj2 (unknown_only_with_signals Samples.api _ _ _
                            eq_refl eq_refl eq_refl eq_refl))
              eq_refl eq_refl eq_refl).
  - refine (proj1 (proj2 (unknown_only_with_signals Samples.redis _ _ _
                            eq_refl eq_refl eq_refl eq_refl))
              eq_refl eq_refl eq_refl).
Defined.


(* ====================================================================== *)
(** * Reverse-proxy detection *)

Lemma bound_has_binding (ports : dict pyval) (port : string) :
  forallb (fun kv => bindings_ok (snd kv)) ports = true ->
  bound ports port = true -> has_binding ports port.
Proof.
  unfold bound, has_binding. intros Hok Hb.
  destruct (dict_get port ports) as [x|] eqn:E; [|discriminate].
  pose proof (dict_get_forall _ _ _ _ Hok E) as Hx.
  destruct (bindings_truthy x Hx Hb) as (b & bs & -> & _). eauto.
Qed.

Lemma existsb_false_forall {A : Type} (f : A -> bool) (l : list A) :
  (forall x, In x l -> f x = false) -> existsb f l = false.
Proof.
  induction l as [|a t IH]; simpl; intros H; [reflexivity|].
  rewrite (H a (or_introl eq_refl)). apply IH. auto.
Qed.

(** C5. For a well-formed record whose lower-cased image reference
    contains no entry of the known reverse-proxy images, detection only
    answers true when 80/tcp and 443/tcp both have a binding and the image
    reference or some label key contains "traefik" (letter case aside);
    without such a mention the answer is false, whatever is published. *)
Theorem reverse_proxy_heuristic_gated (c : pyval) (image : string)
    (ports labels : dict pyval) :
  well_typed c = true ->
  image_lower c = Ok image ->
  network_setting c "Ports" = Ok (PDict ports) ->
  config_field c "Labels" (PDict []) = Ok (PDict labels) ->
  (forall proxy_image, In proxy_image REVERSE_PROXY_IMAGES ->
                       PyStr.contains proxy_image image = false) ->
  (is_reverse_proxy c = Ok true ->
   has_binding ports "80/tcp" /\ has_binding ports "443/tcp"
   /\ (PyStr.contains "traefik" image = true
       \/ exists k, In k (dict_keys labels)
                    /\ PyStr.contains "traefik" (PyStr.lower k) = true))
  /\ (PyStr.contains "traefik" image = false ->
      (forall k, In k (dict_keys labels) ->
                 PyStr.contains "traefik" (PyStr.lower k) = false) ->
      is_reverse_proxy c = Ok false).
Proof.
  intros W Hi Hp Hl Hno.
  destruct (well_typed_reads c W) as (v & R).
  pose proof (r_image _ _ R) as Ei. rewrite Hi in Ei. injection Ei as Ei.
  pose proof (r_ports _ _ R) as Ep. rewrite Hp in Ep. injection Ep as Ep.
  pose proof (r_labels _ _ R) as El. rewrite Hl in El. injection El as El.
  pose proof (r_ports_ok _ _ R) as Hok.
  rewrite (is_reverse_proxy_reads c v R). unfold reverse_proxy_rule.
  rewrite <- Ei, <- Ep, <- El in *.
  rewrite (existsb_false_forall _ _ Hno). cbn [orb].
  split.
  - intros H. injection H as H.
    apply andb_prop in H. destruct H as [H Htr].
    apply andb_prop in H. destruct H as [H80 H443].
    split; [apply bound_has_binding; assumption|].
    split; [apply bound_has_binding; assumption|].
    apply orb_prop in Htr. destruct Htr as [Htr|Htr]; [left; exact Htr|].
    right. apply existsb_exists in Htr. exact Htr.
  - intros Him Hk. rewrite Him, (existsb_false_forall _ _ Hk).
    rewrite andb_false_r. reflexivity.
Qed.

Lemma reverse_proxy_heuristic_gated_witness :
  well_typed Samples.webserver = true
  /\ is_reverse_proxy Samples.webserver = Ok false
  /\ is_reverse_proxy Samples.custom_edge = Ok true
  /\ exists ports,
       network_setting Samples.custom_edge "Ports" = Ok (PDict ports)
       /\ has_binding ports "80/tcp" /\ has_binding ports "443/tcp".
Proof.
  split; [reflexivity|]. split; [|split; [reflexivity|]].
  - refine (proj2 (reverse_proxy_heuristic_gated Samples.webserver _ _ _
                     eq_refl eq_refl eq_refl eq_refl _) eq_refl _).
    + intros p Hp. cbn in Hp.
      repeat (destruct Hp as [<-|Hp]; [reflexivity|]). contradiction.
    + intros k Hk. cbn in Hk.
      repeat (destruct Hk as [<-|Hk]; [reflexivity|]). contradiction.
  - eexists. split; [reflexivity|].
    assert (H := proj1 (reverse_proxy_heuristic_gated Samples.custom_edge
                          _ _ _ eq_refl eq_refl eq_refl eq_refl
                          ltac:(intros p Hp; cbn in Hp;
                                repeat (destruct Hp as [<-|Hp];
                                        [reflexivity|]);
                                contradiction))
                   eq_refl).
    split; apply H.
Defined.

(** Letter case outside ASCII: a label key or a network name written with
    the Kelvin sign for its K lower-cases to [traefik], and the capital I
    with dot above lower-cases to an [i]. *)
Example kelvin_label_key_detected :
  is_reverse_proxy
    (Samples.record "abcd" "/gw2" "registry.local/edge-router:3" "running"
       [("TRAEFI" ++ PyStr.kelvin_sign, "on")] []
       ["80/tcp"; "443/tcp"]
       [("80/tcp", PList [Samples.binding "0.0.0.0" "80"]);
        ("443/tcp", PList [Samples.binding "0.0.0.0" "443"])]
       ["bridge"])
  = Ok true.
Proof. vm_compute. reflexivity. Qed.

Example kelvin_network_name_matches :
  PyStr.lower ("TRAEFI" ++ PyStr.kelvin_sign ++ "_net") = "traefik_net"
  /\ is_in_proxy_network ["TRAEFI" ++ PyStr.kelvin_sign ++ "_net"] = true.
Proof. split; vm_compute; reflexivity. Qed.

Example capital_i_with_dot_lowers_to_i :
  PyStr.lower ("AP" ++ PyStr.capital_i_with_dot)
  = "api" ++ PyStr.combining_dot_above
  /\ PyStr.contains "api" (PyStr.lower ("AP" ++ PyStr.capital_i_with_dot))
     = true.
Proof. split; vm_compute; reflexivity. Qed.

(* ====================================================================== *)
(** * Environment parsing *)

Lemma partition1_some (sep : ascii) (s k r : string) :
  PyStr.partition1 sep s = (k, Some r) <->
  s = k ++ String sep r /\ PyStr.contains (String sep EmptyString) k = false.
Proof.
  revert k. induction s as [|a s IH]; intros k; simpl.
  - split; [discriminate|]. intros [H _]. destruct k; discriminate.
  - destruct (Ascii.eqb a sep) eqn:Ea.
    + apply Ascii.eqb_eq in Ea. subst a. split.
      * intros [= <- <-]. split; reflexivity.
      * intros [H Hk]. destruct k as [|b k]; simpl in *.
        -- injection H as ->. reflexivity.
        -- injection H as <- _. rewrite Ascii.eqb_refl in Hk. discriminate.
    + destruct (PyStr.partition1 sep s) as [h o] eqn:Ep. split.
      * intros [= <- ->]. destruct (proj1 (IH h) eq_refl) as [-> Hh].
        split; [reflexivity|]. simpl.
        rewrite Ascii.eqb_sym, Ea. exact Hh.
      * intros [H Hk]. destruct k as [|b k]; simpl in *.
        -- injection H as -> _. rewrite Ascii.eqb_refl in Ea. discriminate.
        -- injection H as <- ->.
           rewrite Ascii.eqb_sym, Ea in Hk. simpl in Hk.
           assert (E : (h, o) = (k, Some r)) by (apply IH; auto).
           injection E as -> ->. reflexivity.
Qed.

(** An entry binds [k] to [v] exactly when it reads [k=v] with no [=] in
    [k]: the split is at the first [=]. *)
Lemma entry_binding_some (e k v : string) :
  entry_binding e = Some (k, v) <->
  e = k ++ "=" ++ v /\ PyStr.contains "=" k = false.
Proof.
  unfold entry_binding. rewrite <- (partition1_some "="%char e k v).
  destruct (PyStr.partition1 "="%char e) as [h [r|]]; split;
    intros H; try discriminate; congruence.
Qed.

Lemma entry_binding_none (e : string) :
  entry_binding e = None <-> PyStr.contains "=" e = false.
Proof.
  unfold entry_binding. rewrite contains_char.
  destruct (PyStr.partition1 "="%char e) as [h [r|]]; simpl; split;
    intros H; try discriminate; reflexivity.
Qed.

(** On strings the loop never raises: it folds [env_step]. *)
Lemma parse_env_strings (entries : list string) :
  forall env,
    parse_env (map PStr entries) env = Ok (fold_left env_step entries env).
Proof.
  induction entries as [|e t IH]; intros env; simpl; [reflexivity|].
  rewrite contains_char. unfold env_step at 2, entry_binding, PyStr.split1.
  destruct (PyStr.partition1 "="%char e) as [k [r|]]; simpl; apply IH.
Qed.

Lemma fold_env_step_get (k : string) (entries : list string) :
  forall env,
    dict_get k (fold_left env_step entries env) =
    match last_value k entries with
    | Some v => Some v
    | None => dict_get k env
    end.
Proof.
  induction entries as [|e t IH]; intros env; simpl; [reflexivity|].
  rewrite IH. destruct (last_value k t); [reflexivity|].
  unfold env_step. destruct (entry_binding e) as [[k' v]|]; [|reflexivity].
  rewrite dict_get_set. destruct (String.eqb k' k); reflexivity.
Qed.

Lemma last_value_none (k : string) (entries : list string) :
  PyStr.contains "=" k = false ->
  (last_value k entries = None <->
   forall e, In e entries -> forall v, e <> k ++ "=" ++ v).
Proof.
  intros Hk.
  assert (Hbind : forall v, entry_binding (k ++ "=" ++ v) = Some (k, v))
    by (intros v; apply entry_binding_some; auto).
  induction entries as [|e t IH]; cbn [last_value In].
  - split; [intros _ ? [] | reflexivity].
  - destruct (last_value k t) as [v|] eqn:El.
    + split; [discriminate|]. intros H.
      assert (Some v = None) by (apply IH; intros; apply H; auto).
      discriminate.
    + destruct (entry_binding e) as [[k' v]|] eqn:Eb.
      * destruct (String.eqb k' k) eqn:Ek.
        -- apply String.eqb_eq in Ek. subst k'. split; [discriminate|].
           intros H. exfalso. apply entry_binding_some in Eb.
           exact (H _ (or_introl eq_refl) v (proj1 Eb)).
        -- apply String.eqb_neq in Ek. split; [|reflexivity].
           intros _ e' [<-|Hin] v' Heq.
           ++ rewrite Heq, Hbind in Eb. congruence.
           ++ apply (proj1 IH eq_refl e' Hin v' Heq).
      * split; [|reflexivity].
        intros _ e' [<-|Hin] v' Heq.
        -- rewrite Heq, Hbind in Eb. discriminate.
        -- apply (proj1 IH eq_refl e' Hin v' Heq).
Qed.

Lemma last_value_some (k v : string) (entries : list string) :
  last_value k entries = Some v <->
  exists before after,
    entries = (before ++ (k ++ "=" ++ v)%string :: after)%list
    /\ PyStr.contains "=" k = false
    /\ forall e, In e after -> forall v', e <> k ++ "=" ++ v'.
Proof.
  split.
  - induction entries as [|e t IH]; cbn [last_value]; [discriminate|].
    destruct (last_value k t) as [w|] eqn:El.
    + intros [= ->]. destruct (IH eq_refl) as (b & a & -> & Hk & Ha).
      exists (e :: b), a. auto.
    + destruct (entry_binding e) as [[k' w]|] eqn:Eb; [|discriminate].
      destruct (String.eqb k' k) eqn:Ek; [|discriminate].
      apply String.eqb_eq in Ek. subst k'. intros [= ->].
      apply entry_binding_some in Eb. destruct Eb as [-> Hk].
      exists [], t. split; [reflexivity|]. split; [exact Hk|].
      apply last_value_none; assumption.
  - intros (b & a & -> & Hk & Ha).
    induction b as [|x b IH]; cbn [app last_value].
    + rewrite (proj2 (last_value_none k a Hk) Ha).
      rewrite (proj2 (entry_binding_some _ k v) (conj eq_refl Hk)).
      rewrite String.eqb_refl. reflexivity.
    + rewrite IH. reflexivity.
Qed.

(** C8. Parsing an environment list never fails; an entry without [=]
    adds nothing; the others are split at their first [=]; and a key is
    mapped to the value of the last entry that names it. Put together: the
    mapping sends [k] to [v] exactly when some entry reads [k=v], with no
    [=] in [k], and no later entry reads [k=...]. *)
Theorem env_parsing_last_wins (entries : list string) :
  exists env,
    parse_env (map PStr entries) [] = Ok env
    /\ (forall k v,
          dict_get k env = Some v <->
          exists before after,
            entries = (before ++ (k ++ "=" ++ v)%string :: after)%list
            /\ PyStr.contains "=" k = false
            /\ forall e, In e after -> forall v', e <> k ++ "=" ++ v')
    /\ (forall e rest env0,
          PyStr.contains "=" e = false ->
          parse_env (PStr e :: rest) env0 = parse_env rest env0).
Proof.
  exists (fold_left env_step entries []).
  split; [apply parse_env_strings|]. split.
  - intros k v. rewrite fold_env_step_get, <- last_value_some.
    destruct (last_value k entries); simpl; split; congruence.
  - intros e rest env0 He. simpl. rewrite He. reflexivity.
Qed.

Lemma env_parsing_last_wins_witness :
  exists env,
    parse_env (map PStr ["A=1"; "junk"; "B=x=y"; "A=2"; "=z"]) [] = Ok env
    /\ dict_get "A" env = Some "2"
    /\ dict_get "B" env = Some "x=y"
    /\ dict_get "junk" env = None.
Proof.
  destruct (env_parsing_last_wins ["A=1"; "junk"; "B=x=y"; "A=2"; "=z"])
    as (env & H & Hget & _).
  exists env. split; [exact H|]. split; [|split].
  - apply Hget. exists ["A=1"; "junk"; "B=x=y"], ["=z"].
    repeat split. intros e [<-|[]] v'. discriminate.
  - apply Hget. exists ["A=1"; "junk"], ["A=2"; "=z"].
    repeat split. intros e [<-|[<-|[]]] v'; discriminate.
  - vm_compute in H. injection H as <-. reflexivity.
Defined.

(* ====================================================================== *)
(** * Missing sections and totality of the rule chain *)

Lemma config_field_missing (c : pyval) (field : string) (dflt : pyval) :
  well_typed c = true ->
  missing (config_section c field) = true ->
  config_field c field dflt = Ok dflt.
Proof.
  destruct c as [| | | | |d]; simpl; try discriminate.
  destruct (dict_get "Name" d) as [[| | |name| |]|]; simpl; try discriminate.
  destruct (dict_get "Config" d) as [[| | | | |cfg]|] eqn:EC; simpl;
    try discriminate.
  intros _ Hm. unfold config_field. simpl. rewrite EC. simpl.
  unfold py_or.
  destruct (dict_get field cfg) as [[]|]; simpl in *; try discriminate;
    destruct (truthy dflt); reflexivity.
Qed.

Lemma network_setting_missing (c : pyval) (field : string) :
  well_typed c = true ->
  missing (network_section c field) = true ->
  network_setting c field = Ok (PDict []).
Proof.
  destruct c as [| | | | |d]; simpl; try discriminate.
  intros W Hm. apply andb_prop in W. destruct W as [_ W].
  unfold network_setting. simpl.
  destruct (dict_get "NetworkSettings" d) as [[| | | | |ns]|]; simpl in *;
    try discriminate; [|reflexivity].
  destruct (dict_get field ns) as [[]|]; simpl in *; try discriminate;
    reflexivity.
Qed.

Lemma signals_of_no_labels (env : dict string) :
  traefik_labels (signals_of [] env) = []
  /\ caddy_labels (signals_of [] env) = [].
Proof.
  unfold signals_of. cbn [fold_left].
  destruct (nginx_fold_keeps env nginx_proxy_vars no_signals) as [-> ->].
  auto.
Qed.

Lemma signals_of_no_env (labels : dict pyval) :
  nginx_proxy_env (signals_of labels []) = [].
Proof.
  unfold signals_of.
  apply fold_left_invariant
    with (P := fun s => nginx_proxy_env s = []) (Q := fun _ => True);
    [| apply Forall_forall; auto |].
  { intros s [k x] Hs _. unfold caddy_step.
    destruct (PyStr.startswith k "caddy" || _); exact Hs. }
  apply fold_left_invariant
    with (P := fun s => nginx_proxy_env s = []) (Q := fun _ => True);
    [| apply Forall_forall; auto |].
  { intros s var Hs _. exact Hs. }
  apply fold_left_invariant
    with (P := fun s => nginx_proxy_env s = []) (Q := fun _ => True);
    [| apply Forall_forall; auto | reflexivity].
  intros s [k x] Hs _. unfold traefik_step.
  destruct (PyStr.startswith k "traefik."); exact Hs.
Qed.

(** C9. On a well-formed record, whichever of the label map, environment
    list, exposed-port map, port map and network map are absent or [null],
    signal extraction, reverse-proxy detection, classification and the
    candidacy decision all return a value; and each extractor reads a
    missing section as empty. *)
Theorem rule_chain_total (c : pyval) :
  well_typed c = true ->
  (exists s rp classification decision,
      detect_proxy_signals c = Ok s
      /\ is_reverse_proxy c = Ok rp
      /\ classify_container c = Ok classification
      /\ is_candidate_for_migration c classification = Ok decision)
  /\ (exists published exposed nets,
         get_published_ports c = Ok published
         /\ get_exposed_ports c = Ok exposed
         /\ container_networks c = Ok nets)
  /\ (missing (config_section c "Labels") = true ->
      exists s, detect_proxy_signals c = Ok s
                /\ traefik_labels s = [] /\ caddy_labels s = [])
  /\ (missing (config_section c "Env") = true ->
      exists s, detect_proxy_signals c = Ok s /\ nginx_proxy_env s = [])
  /\ (missing (config_section c "ExposedPorts") = true ->
      get_exposed_ports c = Ok [])
  /\ (missing (network_section c "Ports") = true ->
      get_published_ports c = Ok [])
  /\ (missing (network_section c "Networks") = true ->
      container_networks c = Ok []).
Proof.
  intros W. destruct (well_typed_reads c W) as (v & R).
  destruct (detect_proxy_signals_reads c v R) as (env & Henv & Hs).
  destruct (well_typed_classify c W)
    as (s & published & nets & Hs' & Hp & Hn & _ & _ & Hc).
  split; [|split; [|split; [|split; [|split; [|split]]]]].
  - exists s, (reverse_proxy_rule v), (classify_rule s published nets).
    eexists. split; [exact Hs'|].
    split; [apply is_reverse_proxy_reads; exact R|].
    split; [exact Hc|]. apply is_candidate_reads. exact R.
  - exists published, (dict_keys (v_exposed v)), nets.
    split; [exact Hp|]. split; [|exact Hn].
    apply get_exposed_ports_reads. exact R.
  - intros Hm. pose proof (r_labels _ _ R) as E.
    rewrite (config_field_missing c "Labels" _ W Hm) in E.
    injection E as E. rewrite <- E in Hs.
    eexists. split; [exact Hs|]. apply signals_of_no_labels.
  - intros Hm. pose proof (r_env _ _ R) as E.
    rewrite (config_field_missing c "Env" _ W Hm) in E.
    injection E as E. rewrite <- E in Henv. simpl in Henv.
    injection Henv as <-.
    eexists. split; [exact Hs|]. apply signals_of_no_env.
  - intros Hm. unfold get_exposed_ports.
    rewrite (config_field_missing c "ExposedPorts" _ W Hm). reflexivity.
  - intros Hm. unfold get_published_ports.
    rewrite (network_setting_missing c "Ports" W Hm). reflexivity.
  - intros Hm. unfold container_networks.
    rewrite (network_setting_missing c "Networks" W Hm). reflexivity.
Qed.

Lemma rule_chain_total_witness :
  (well_typed Samples.bare = true
   /\ get_published_ports Samples.bare = Ok []
   /\ container_networks Samples.bare = Ok [])
  /\ (well_typed Samples.nulls = true
      /\ get_exposed_ports Samples.nulls = Ok []
      /\ exists s rp classification decision,
           detect_proxy_signals Samples.nulls = Ok s
           /\ is_reverse_proxy Samples.nulls = Ok rp
           /\ classify_container Samples.nulls = Ok classification
           /\ is_candidate_for_migration Samples.nulls classification
              = Ok decision).
Proof.
  pose proof (rule_chain_total Samples.bare eq_refl) as Hb.
  pose proof (rule_chain_total Samples.nulls eq_refl) as Hn.
  split.
  - split; [reflexivity|]. split.
    + apply Hb. reflexivity.
    + apply Hb. reflexivity.
  - split; [reflexivity|]. split.
    + apply Hn. reflexivity.
    + apply Hn.
Defined.

(** Outside the well-formed records the chain does raise: a [null]
    [NetworkSettings], a record without [Config], a label that is not a
    string. *)
Example null_network_settings_raises :
  get_published_ports
    (PDict [("Name", PStr "/x"); ("Config", PDict [("Image", PStr "busybox")]);
            ("NetworkSettings", PNone)])
  = Raise AttributeError.
Proof. reflexivity. Qed.

Example missing_config_raises :
  detect_proxy_signals (PDict [("Name", PStr "/x")]) = Raise KeyError.
Proof. reflexivity. Qed.

Example non_string_label_raises :
  classify_container
    (PDict [("Name", PStr "/x");
            ("Config", PDict [("Image", PStr "busybox");
                              ("Labels",
                               PDict [("traefik.enable", PBool true)])])])
  = Raise AttributeError.
Proof. reflexivity. Qed.

(* ====================================================================== *)
(** * The lifecycle status is only copied *)

Section Status.

Variables c c' : pyval.
Hypothesis D : differ_only_in_status c c'.

Lemma status_getitem (k : string) :
  k <> "State" -> py_getitem c k = py_getitem c' k.
Proof.
  destruct D as (d & d' & st & st' & -> & -> & Hd & _).
  intros Hk. simpl. rewrite (Hd k Hk). reflexivity.
Qed.

Lemma status_get (k : string) (dflt : pyval) :
  k <> "State" -> py_get c k dflt = py_get c' k dflt.
Proof.
  destruct D as (d & d' & st & st' & -> & -> & Hd & _).
  intros Hk. simpl. rewrite (Hd k Hk). reflexivity.
Qed.

Lemma status_container_image : container_image c = container_image c'.
Proof.
  unfold container_image. rewrite (status_getitem "Config"); [reflexivity|].
  discriminate.
Qed.

Lemma status_image_lower : image_lower c = image_lower c'.
Proof. unfold image_lower. rewrite status_container_image. reflexivity. Qed.

Lemma status_config_field (field : string) (dflt : pyval) :
  config_field c field dflt = config_field c' field dflt.
Proof.
  unfold config_field. rewrite (status_getitem "Config"); [reflexivity|].
  discriminate.
Qed.

Lemma status_network_setting (field : string) :
  network_setting c field = network_setting c' field.
Proof.
  unfold network_setting.
  rewrite (status_get "NetworkSettings"); [reflexivity|]. discriminate.
Qed.

Lemma status_container_name : container_name c = container_name c'.
Proof.
  unfold container_name. rewrite (status_getitem "Name"); [reflexivity|].
  discriminate.
Qed.

Lemma status_container_networks :
  container_networks c = container_networks c'.
Proof.
  unfold container_networks. rewrite status_network_setting. reflexivity.
Qed.

Lemma status_get_exposed_ports : get_exposed_ports c = get_exposed_ports c'.
Proof.
  unfold get_exposed_ports. rewrite status_config_field. reflexivity.
Qed.

Lemma status_get_published_ports :
  get_published_ports c = get_published_ports c'.
Proof.
  unfold get_published_ports. rewrite status_network_setting. reflexivity.
Qed.

Lemma status_detect_proxy_signals :
  detect_proxy_signals c = detect_proxy_signals c'.
Proof.
  unfold detect_proxy_signals. rewrite !status_config_field. reflexivity.
Qed.

Lemma status_is_reverse_proxy : is_reverse_proxy c = is_reverse_proxy c'.
Proof.
  unfold is_reverse_proxy.
  rewrite status_image_lower, status_network_setting.
  rewrite (status_config_field "Labels"). reflexivity.
Qed.

Lemma status_classify_container :
  classify_container c = classify_container c'.
Proof.
  unfold classify_container.
  rewrite status_detect_proxy_signals, status_get_published_ports,
    status_container_networks.
  reflexivity.
Qed.

Lemma status_is_http_service : is_http_service c = is_http_service c'.
Proof.
  unfold is_http_service.
  rewrite status_image_lower, status_get_exposed_ports. reflexivity.
Qed.

Lemma status_is_candidate (classification : string) :
  is_candidate_for_migration c classification =
  is_candidate_for_migration c' classification.
Proof.
  unfold is_candidate_for_migration.
  rewrite status_container_name, status_is_reverse_proxy,
    status_is_http_service.
  reflexivity.
Qed.

Lemma status_analyze_risks (published : dict (list string)) :
  analyze_risks c published = analyze_risks c' published.
Proof.
  unfold analyze_risks.
  rewrite status_get_exposed_ports, (status_config_field "Labels"),
    status_image_lower.
  reflexivity.
Qed.

Lemma status_generate_recommended_labels :
  generate_recommended_labels c = generate_recommended_labels c'.
Proof.
  unfold generate_recommended_labels.
  rewrite status_container_name, status_get_exposed_ports. reflexivity.
Qed.

Lemma status_analyze_container (r : rp_entry + analysis_entry)
    (status' : pyval) :
  analyze_container c = Ok r ->
  container_status c' = Ok status' ->
  analyze_container c' = Ok (with_status status' r).
Proof.
  unfold analyze_container. intros H Hst.
  rewrite (status_getitem "Id") in H by discriminate.
  rewrite status_container_name, status_container_image,
    status_container_networks, status_is_reverse_proxy,
    status_get_published_ports, status_detect_proxy_signals,
    status_get_exposed_ports, status_classify_container in H.
  rewrite Hst. cbn [bind].
  destruct (py_getitem c' "Id") as [id|]; cbn [bind] in *; [|discriminate].
  destruct (py_slice_to 12 id) as [c_id|]; cbn [bind] in *; [|discriminate].
  destruct (container_name c') as [name|]; cbn [bind] in *; [|discriminate].
  destruct (container_image c') as [image|]; cbn [bind] in *;
    [|discriminate].
  destruct (container_status c) as [status|]; cbn [bind] in *;
    [|discriminate].
  destruct (container_networks c') as [nets|]; cbn [bind] in *;
    [|discriminate].
  destruct (is_reverse_proxy c') as [[|]|]; cbn [bind] in *;
    [| |discriminate].
  - destruct (get_published_ports c') as [published|]; cbn [bind] in *;
      [|discriminate].
    injection H as <-. reflexivity.
  - destruct (detect_proxy_signals c') as [s|]; cbn [bind] in *;
      [|discriminate].
    destruct (get_published_ports c') as [published|]; cbn [bind] in *;
      [|discriminate].
    destruct (get_exposed_ports c') as [exposed|]; cbn [bind] in *;
      [|discriminate].
    destruct (classify_container c') as [cls|]; cbn [bind] in *;
      [|discriminate].
    rewrite (status_is_candidate cls) in H.
    destruct (is_candidate_for_migration c' cls) as [[cand reason]|];
      cbn [bind] in *; [|discriminate].
    rewrite (status_analyze_risks published) in H.
    destruct (analyze_risks c' published) as [risks|]; cbn [bind] in *;
      [|discriminate].
    rewrite status_generate_recommended_labels in H.
    destruct (if cand then generate_recommended_labels c' else Ok [])
      as [labels|]; cbn [bind] in *; [|discriminate].
    injection H as <-. reflexivity.
Qed.

End Status.

(** C10. Two records that differ only in their status string get the same
    reverse-proxy verdict, classification, HTTP-service verdict, candidacy
    decision, risk notes and recommended labels; the status only shows in
    the [status] field of the loop body's result. *)
Theorem status_noninterference (c c' : pyval) :
  differ_only_in_status c c' ->
  is_reverse_proxy c = is_reverse_proxy c'
  /\ classify_container c = classify_container c'
  /\ is_http_service c = is_http_service c'
  /\ (forall classification,
         is_candidate_for_migration c classification =
         is_candidate_for_migration c' classification)
  /\ (forall published,
         analyze_risks c published = analyze_risks c' published)
  /\ generate_recommended_labels c = generate_recommended_labels c'
  /\ (forall r status',
         analyze_container c = Ok r ->
         container_status c' = Ok status' ->
         analyze_container c' = Ok (with_status status' r)).
Proof.
  intros D.
  split; [apply status_is_reverse_proxy; exact D|].
  split; [apply status_classify_container; exact D|].
  split; [apply status_is_http_service; exact D|].
  split; [apply status_is_candidate; exact D|].
  split; [apply status_analyze_risks; exact D|].
  split; [apply status_generate_recommended_labels; exact D|].
  intros r status'. apply status_analyze_container. exact D.
Qed.

Ltac agree_on_keys :=
  let k := fresh "k" in
  let Hk := fresh "Hk" in
  intros k Hk; cbn [dict_get];
  repeat match goal with
         | |- context [String.eqb ?a k] =>
             let E := fresh "E" in
             destruct (String.eqb a k) eqn:E;
             [first [reflexivity
                    | apply String.eqb_eq in E; symmetry in E; contradiction]
             |]
         end;
  reflexivity.

Lemma status_noninterference_witness :
  let stopped :=
    Samples.record "0123456789abcdef" "/my-api.v1" "myapp/api:1.0" "exited"
      [] [] ["8080/tcp"]
      [("8080/tcp", PList [Samples.binding "0.0.0.0" "8080"])] ["bridge"] in
  differ_only_in_status Samples.api stopped
  /\ classify_container stopped = Ok "exposed_directly"
  /\ (forall r, analyze_container Samples.api = Ok r ->
                analyze_container stopped = Ok (with_status (PStr "exited") r)).
Proof.
  intros stopped.
  assert (D : differ_only_in_status Samples.api stopped).
  { unfold differ_only_in_status, Samples.api, stopped, Samples.record.
    do 4 eexists. split; [reflexivity|]. split; [reflexivity|].
    split; [agree_on_keys|]. split; [reflexivity|]. split; [reflexivity|].
    agree_on_keys. }
  destruct (status_noninterference Samples.api stopped D)
    as (_ & Hc & _ & _ & _ & _ & He).
  split; [exact D|]. split.
  - rewrite <- Hc. reflexivity.
  - intros r Hr. apply He; [exact Hr | reflexivity].
Defined.

(* ====================================================================== *)
(** * The loop body and the manifest *)


Lemma analyze_risks_reads (c : pyval) (v : view)
    (published : dict (list string)) :
  reads c v -> exists risks, analyze_risks c published = Ok risks.
Proof.
  intros R. unfold analyze_risks.
  rewrite (get_exposed_ports_reads _ _ R), (r_labels _ _ R), (r_image _ _ R).
  cbn [bind py_iter]. rewrite any_key_contains_keys. cbn [bind]. eauto.
Qed.

Lemma generate_recommended_labels_reads (c : pyval) (v : view) :
  reads c v ->
  exists labels,
    generate_recommended_labels c = Ok labels
    /\ dict_get (port_label (v_name v)) labels =
       Some (match find is_http_port (dict_keys (v_exposed v)) with
             | Some p => PyStr.split_head "/"%char p
             | None => "80"
             end).
Proof.
  intros R. unfold generate_recommended_labels.
  rewrite (r_name _ _ R), (get_exposed_ports_reads _ _ R). cbn [bind].
  eexists. split; [reflexivity|].
  unfold dict_of_list. cbn [fold_left fst snd].
  rewrite dict_get_set. unfold port_label. rewrite String.eqb_refl.
  reflexivity.
Qed.

Lemma inspected_inv (c : pyval) :
  inspected c = true ->
  well_typed c = true
  /\ (exists id, py_getitem c "Id" = Ok (PStr id))
  /\ (exists status, container_status c = Ok status).
Proof.
  unfold inspected. intros H.
  apply andb_prop in H. destruct H as [H Hst].
  apply andb_prop in H. destruct H as [W Hid].
  split; [exact W|]. split.
  - destruct (py_getitem c "Id") as [[]|]; try discriminate. eauto.
  - destruct (container_status c); [eauto | discriminate].
Qed.

(** What the loop body produces for a record [main] can read: a
    reverse-proxy entry when detection answers true, and otherwise an
    analysis entry that carries the results of the rule chain. *)
Lemma analyze_container_inspected (c : pyval) :
  inspected c = true ->
  (is_reverse_proxy c = Ok true
   /\ exists rp, analyze_container c = Ok (inl rp))
  \/ (is_reverse_proxy c = Ok false
      /\ exists e name reason,
           analyze_container c = Ok (inr e)
           /\ container_name c = Ok name
           /\ e_container_name e = name
           /\ classify_container c = Ok (e_classification e)
           /\ is_candidate_for_migration c (e_classification e)
              = Ok (e_candidate_for_migration e, reason)
           /\ e_migration_reason e = reason
           /\ e_recommended_hostnames e =
              (if e_candidate_for_migration e then [name ++ ".local"] else [])
           /\ (if e_candidate_for_migration e
               then generate_recommended_labels c
                    = Ok (e_recommended_labels e)
               else e_recommended_labels e = [])).
Proof.
  intros I. destruct (inspected_inv c I) as (W & (id & Hid) & (st & Hst)).
  destruct (well_typed_reads c W) as (v & R).
  destruct (well_typed_classify c W)
    as (s & published & nets & Hs & Hp & Hn & _ & _ & Hc).
  pose proof (is_reverse_proxy_reads c v R) as Hrp.
  pose proof (r_image _ _ R) as Him. unfold image_lower in Him.
  apply bind_inv in Him. destruct Him as (image & Him & _).
  destruct (analyze_risks_reads c v published R) as (risks & Hrisks).
  destruct (generate_recommended_labels_reads c v R) as (labels & Hl & _).
  assert (Hcand : exists cand reason,
             is_candidate_for_migration c (classify_rule s published nets)
             = Ok (cand, reason)).
  { rewrite (is_candidate_reads c v _ R).
    destruct (if reverse_proxy_rule v then _ else _) as [cand reason]. eauto. }
  destruct Hcand as (cand & reason & Hcand).
  unfold analyze_container.
  rewrite Hid, (r_name _ _ R), Him, Hst, Hn, Hrp. cbn [bind py_slice_to].
  destruct (reverse_proxy_rule v) eqn:Erp.
  - left. split; [reflexivity|]. rewrite Hp. cbn [bind]. eauto.
  - right. split; [reflexivity|].
    rewrite Hs, Hp, (get_exposed_ports_reads _ _ R), Hc. cbn [bind].
    rewrite Hcand. cbn [bind]. rewrite Hrisks. cbn [bind].
    destruct cand; cbn [bind].
    + rewrite Hl. cbn [bind]. do 3 eexists.
      split; [reflexivity|]. cbn. repeat split; auto.
    + do 3 eexists. split; [reflexivity|]. cbn. repeat split; auto.
Qed.

Lemma main_loop_results (cs : list pyval) :
  forall rs rps inventory,
    map_res analyze_container cs = Ok rs ->
    main_loop cs rps inventory =
    Ok ((rps ++ rp_entries rs)%list, (inventory ++ analysis_entries rs)%list).
Proof.
  induction cs as [|c t IH]; intros rs rps inventory H; simpl in *.
  - injection H as <-. simpl. rewrite !app_nil_r. reflexivity.
  - apply bind_inv in H. destruct H as (r & Hr & H).
    apply bind_inv in H. destruct H as (rs' & Hrs & H).
    injection H as <-. rewrite Hr. cbn [bind].
    destruct r as [rp|e]; rewrite (IH _ _ _ Hrs); simpl;
      rewrite <- !app_assoc; reflexivity.
Qed.

Lemma split_lengths (rs : list (rp_entry + analysis_entry)) :
  length (rp_entries rs) + length (analysis_entries rs) = length rs.
Proof.
  induction rs as [|[rp|e] t IH]; simpl; lia.
Qed.

Lemma in_rp_entries (rp : rp_entry) (rs : list (rp_entry + analysis_entry)) :
  In rp (rp_entries rs) <-> In (inl rp) rs.
Proof.
  induction rs as [|[x|x] t IH]; simpl; [tauto | |].
  - rewrite IH. split; intros [H|H]; auto; left; congruence.
  - rewrite IH. split; [auto|]. intros [H|H]; [discriminate | auto].
Qed.

Lemma in_analysis_entries (e : analysis_entry)
    (rs : list (rp_entry + analysis_entry)) :
  In e (analysis_entries rs) <-> In (inr e) rs.
Proof.
  induction rs as [|[x|x] t IH]; simpl; [tauto | |].
  - rewrite IH. split; [auto|]. intros [H|H]; [discriminate | auto].
  - rewrite IH. split; intros [H|H]; auto; left; congruence.
Qed.

Lemma analyze_all (cs : list pyval) :
  Forall (fun c => inspected c = true) cs ->
  exists rs, map_res analyze_container cs = Ok rs
             /\ Forall2 sorted_by_detector cs rs.
Proof.
  induction 1 as [|c t Hc Ht (rs & Hrs & HF)]; simpl.
  - exists []. split; [reflexivity | constructor].
  - destruct (analyze_container_inspected c Hc)
      as [(Hrp & rp & Hr) | (Hrp & e & name & reason & Hr & _ & _ & Hcls & _)].
    + exists (inl rp :: rs). rewrite Hr, Hrs. split; [reflexivity|].
      constructor; [split; assumption | exact HF].
    + exists (inr e :: rs). rewrite Hr, Hrs. split; [reflexivity|].
      constructor; [split; [assumption | split; assumption] | exact HF].
Qed.

(** C6. On a snapshot of records [main] can read, the manifest is built;
    every record yields one result, a reverse-proxy entry exactly when the
    detector answers true and an analysis entry (with the classifier's
    answer) otherwise; the manifest's two lists are these entries in
    snapshot order, so each record is in exactly one of them. A
    reverse-proxy entry has no classification or candidacy field. *)
Theorem reverse_proxies_kept_apart (snapshot : list pyval) :
  Forall (fun c => inspected c = true) snapshot ->
  exists m results,
    build_manifest snapshot = Ok m
    /\ Forall2 sorted_by_detector snapshot results
    /\ reverse_proxies m = rp_entries results
    /\ containers m = analysis_entries results
    /\ length (reverse_proxies m) + length (containers m) = length snapshot
    /\ (forall c, In c snapshot -> is_reverse_proxy c = Ok true ->
                  exists rp, analyze_container c = Ok (inl rp)
                             /\ In rp (reverse_proxies m))
    /\ (forall e, In e (containers m) ->
                  exists c, In c snapshot
                            /\ is_reverse_proxy c = Ok false
                            /\ analyze_container c = Ok (inr e)).
Proof.
  intros Hall. destruct (analyze_all snapshot Hall) as (rs & Hrs & HF).
  unfold build_manifest. rewrite (main_loop_results _ _ [] [] Hrs).
  cbn [bind app].
  destruct (fold_left count_step (analysis_entries rs) ([], 0))
    as [by_cls candidates].
  eexists. exists rs. split; [reflexivity|]. cbn.
  split; [exact HF|]. split; [reflexivity|]. split; [reflexivity|].
  split; [rewrite split_lengths; symmetry; exact (Forall2_length HF)|].
  split.
  - intros c Hin Hrp. clear Hrs Hall.
    induction HF as [|c0 r cs' rs' (Hr & Hkind) HF' IH]; [contradiction|].
    destruct Hin as [->|Hin].
    + destruct r as [rp|e].
      * exists rp. split; [exact Hr|]. left. reflexivity.
      * destruct Hkind as [Hno _]. rewrite Hrp in Hno. discriminate.
    + destruct (IH Hin) as (rp & Hrp' & Hin').
      exists rp. split; [exact Hrp'|].
      destruct r; simpl; auto.
  - intros e Hin. apply in_analysis_entries in Hin. clear Hrs Hall.
    induction HF as [|c0 r cs' rs' (Hr & Hkind) HF' IH]; [contradiction|].
    destruct Hin as [->|Hin].
    + exists c0. split; [left; reflexivity|]. split; [apply Hkind | exact Hr].
    + destruct (IH Hin) as (c & Hc & H). exists c. split; [right; exact Hc|].
      exact H.
Qed.

Lemma reverse_proxies_kept_apart_witness :
  exists m,
    build_manifest [Samples.api; Samples.traefik; Samples.redis] = Ok m
    /\ map rp_container_name (reverse_proxies m) = ["edge"]
    /\ map e_container_name (containers m) = ["my-api.v1"; "cache"].
Proof.
  destruct (reverse_proxies_kept_apart
              [Samples.api; Samples.traefik; Samples.redis])
    as (m & rs & Hm & _).
  - repeat constructor.
  - exists m. split; [exact Hm|].
    vm_compute in Hm. injection Hm as <-. split; reflexivity.
Defined.

(* ====================================================================== *)
(** * The API example *)

(** A record that publishes 8080/tcp only, has no proxy signal and runs
    [myapp/api:1.0], but whose first exposed HTTP port is 80: it is
    classified [exposed_directly] and is a candidate, and the port
    recommended for the load balancer is 80, not 8080. *)
Lemma api_exposing_80_recommends_80 :
  inspected Samples.api_exposing_80 = true
  /\ container_image Samples.api_exposing_80 = Ok (PStr "myapp/api:1.0")
  /\ get_published_ports Samples.api_exposing_80
     = Ok [("8080/tcp", ["0.0.0.0:8080"])]
  /\ detect_proxy_signals Samples.api_exposing_80 = Ok no_signals
  /\ exists e,
       analyze_container Samples.api_exposing_80 = Ok (inr e)
       /\ e_classification e = "exposed_directly"
       /\ e_candidate_for_migration e = true
       /\ dict_get (port_label "my-api.v1") (e_recommended_labels e)
          = Some "80"
       /\ dict_get (port_label "my-api.v1") (e_recommended_labels e)
          <> Some "8080".
Proof.
  split; [reflexivity|]. split; [reflexivity|]. split; [reflexivity|].
  split; [reflexivity|].
  eexists. split; [reflexivity|]. split; [reflexivity|].
  split; [reflexivity|]. split; [reflexivity|]. discriminate.
Qed.

Lemma published_only (c : pyval) (v : view) (published : dict (list string))
    (port : string) :
  reads c v ->
  get_published_ports c = Ok published ->
  ~ In port (dict_keys published) ->
  bound (v_ports v) port = false.
Proof.
  intros R Hp Hnot.
  destruct (get_published_ports_reads c v R) as (p & Hp' & Hloop).
  rewrite Hp in Hp'. injection Hp' as <-.
  destruct (bound (v_ports v) port) eqn:Eb; [|reflexivity].
  exfalso. apply Hnot. apply dict_has_keys.
  apply (published_loop_keys _ _ _ Hloop port). right.
  unfold bound in Eb.
  destruct (dict_get port (v_ports v)) as [x|] eqn:Ex; [|discriminate].
  exists x. split; [apply dict_get_In; exact Ex | exact Eb].
Qed.

(** C7, amended. A record [main] can read that publishes 8080/tcp only,
    has no proxy signal, runs [myapp/api:1.0] and whose first exposed port
    with an HTTP port number is 8080 is classified [exposed_directly], is
    an HTTP service and a candidate; its recommended load-balancer port is
    "8080" and its recommended host names are [<name>.local] alone. *)
Theorem api_example (c : pyval) (name : string)
    (published : dict (list string)) (s : proxy_signals)
    (exposed : list string) (p : string) :
  inspected c = true ->
  container_name c = Ok name ->
  container_image c = Ok (PStr "myapp/api:1.0") ->
  get_published_ports c = Ok published ->
  dict_keys published = ["8080/tcp"] ->
  detect_proxy_signals c = Ok s ->
  has_proxy_signals s = false ->
  get_exposed_ports c = Ok exposed ->
  find is_http_port exposed = Some p ->
  PyStr.split_head "/"%char p = "8080" ->
  classify_container c = Ok "exposed_directly"
  /\ is_http_service c = Ok true
  /\ exists e reason,
       analyze_container c = Ok (inr e)
       /\ e_classification e = "exposed_directly"
       /\ is_candidate_for_migration c "exposed_directly" = Ok (true, reason)
       /\ e_candidate_for_migration e = true
       /\ dict_get (port_label name) (e_recommended_labels e) = Some "8080"
       /\ e_recommended_hostnames e = [name ++ ".local"].
Proof.
  intros I Hname Himage Hp Hkeys Hs Hoff Hexp Hfind Hport.
  destruct (inspected_inv c I) as (W & _ & _).
  destruct (well_typed_reads c W) as (v & R).
  (* what was read *)
  pose proof (r_name _ _ R) as En. rewrite Hname in En. injection En as En.
  pose proof (r_image _ _ R) as Ei. unfold image_lower in Ei.
  rewrite Himage in Ei. injection Ei as Ei. cbn in Ei.
  pose proof (get_exposed_ports_reads c v R) as Ex.
  rewrite Hexp in Ex. injection Ex as Ex.
  (* not a reverse proxy *)
  assert (Hrp : reverse_proxy_rule v = false).
  { unfold reverse_proxy_rule. rewrite <- Ei.
    rewrite (published_only c v published "80/tcp" R Hp).
    - reflexivity.
    - rewrite Hkeys. intros [H|[]]. discriminate. }
  (* an HTTP service, by its image *)
  assert (Hhttp : http_service_rule v = true).
  { unfold http_service_rule. rewrite <- Ei. apply orb_true_r. }
  (* classified as exposed directly *)
  destruct (well_typed_classify c W)
    as (s' & published' & nets & Hs' & Hp' & _ & Hflag & _ & Hc).
  rewrite Hs in Hs'. injection Hs' as <-.
  rewrite Hp in Hp'. injection Hp' as <-.
  assert (Hcls : classify_container c = Ok "exposed_directly").
  { rewrite Hc. unfold classify_rule, rule1, rule2.
    destruct (proj1 (flag_off_subsets s Hflag) Hoff) as (-> & -> & ->).
    rewrite Hoff. destruct published; [discriminate|]. reflexivity. }
  split; [exact Hcls|].
  split; [rewrite (is_http_service_reads c v R), Hhttp; reflexivity|].
  (* the entry *)
  pose proof (is_candidate_reads c v "exposed_directly" R) as Hcand.
  rewrite Hrp, Hhttp in Hcand. cbn in Hcand.
  destruct (generate_recommended_labels_reads c v R) as (labels & Hl & Hget).
  rewrite <- Ex, Hfind, Hport, <- En in Hget.
  destruct (analyze_container_inspected c I)
    as [(Hyes & _) | (_ & e & name' & reason & He & Hn' & _ & Hce & Hde & _
                      & Hhost & Hlab)].
  { rewrite (is_reverse_proxy_reads c v R), Hrp in Hyes. discriminate. }
  rewrite Hname in Hn'. injection Hn' as <-.
  rewrite Hcls in Hce. injection Hce as Hce. rewrite <- Hce in Hde.
  rewrite Hcand in Hde. injection Hde as Hde _. rewrite <- Hde in Hhost, Hlab.
  rewrite Hl in Hlab. injection Hlab as Hlab.
  exists e. eexists. split; [exact He|]. split; [auto|].
  split; [exact Hcand|]. split; [auto|].
  split; [rewrite <- Hlab; exact Hget | exact Hhost].
Qed.

Lemma api_example_witness :
  inspected Samples.api = true
  /\ exists e,
       analyze_container Samples.api = Ok (inr e)
       /\ dict_get (port_label "my-api.v1") (e_recommended_labels e)
          = Some "8080"
       /\ e_recommended_hostnames e = ["my-api.v1.local"].
Proof.
  split; [reflexivity|].
  destruct (api_example Samples.api "my-api.v1"
              [("8080/tcp", ["0.0.0.0:8080"])] no_signals ["8080/tcp"]
              "8080/tcp" eq_refl eq_refl eq_refl eq_refl eq_refl eq_refl
              eq_refl eq_refl eq_refl eq_refl)
    as (_ & _ & e & reason & He & _ & _ & _ & Hport & Hhost).
  exists e. auto.
Defined.

(* ====================================================================== *)
(** * Further properties: the extracted signals *)

Lemma detect_proxy_signals_inv (c : pyval) (s : proxy_signals) :
  detect_proxy_signals c = Ok s ->
  exists labels env_val env_list env,
    config_field c "Labels" (PDict []) = Ok (PDict labels)
    /\ config_field c "Env" (PList []) = Ok env_val
    /\ py_iter env_val = Ok env_list
    /\ parse_env env_list [] = Ok env
    /\ s = signals_of labels env.
Proof.
  unfold detect_proxy_signals. intros H.
  apply bind_inv in H. destruct H as (labels & Hl & H).
  apply bind_inv in H. destruct H as (env_val & He & H).
  apply bind_inv in H. destruct H as (env_list & Hi & H).
  apply bind_inv in H. destruct H as (env & Hp & H).
  apply bind_inv in H. destruct H as (items & Hit & H).
  destruct labels; try discriminate. injection Hit as <-.
  injection H as <-. exists d, env_val, env_list, env. auto.
Qed.

(** X1. Whenever signal extraction returns, the aggregate flag is set exactly
    when one of the three subsets has an entry. *)
Theorem detect_flag_invariant (c : pyval) (s : proxy_signals) :
  detect_proxy_signals c = Ok s ->
  (has_proxy_signals s = true <->
   traefik_labels s <> [] \/ nginx_proxy_env s <> [] \/ caddy_labels s <> []).
Proof.
  intros H. destruct (detect_proxy_signals_inv c s H)
    as (labels & _ & _ & env & _ & _ & _ & _ & ->).
  rewrite (signals_of_flag labels env).
  destruct (traefik_labels _), (nginx_proxy_env _), (caddy_labels _);
    cbn; split; intros H'; try discriminate; try reflexivity;
    try (right; right; discriminate); try (right; left; discriminate);
    try (left; discriminate).
  destruct H' as [?|[?|?]]; congruence.
Qed.

Lemma detect_flag_invariant_witness :
  exists s, detect_proxy_signals Samples.enabled = Ok s
            /\ has_proxy_signals s = true /\ traefik_labels s <> [].
Proof.
  eexists. split; [reflexivity|].
  pose proof (detect_flag_invariant Samples.enabled _ eq_refl) as H.
  split; [apply H; left|]; discriminate.
Defined.

Lemma dict_set_fresh {V : Type} (k : string) (v : V) (d : dict V) :
  ~ In k (dict_keys d) -> dict_set k v d = (d ++ [(k, v)])%list.
Proof.
  induction d as [|[k0 v0] t IH]; simpl; intros H; [reflexivity|].
  destruct (String.eqb k0 k) eqn:E.
  - apply String.eqb_eq in E. exfalso. apply H. left. exact E.
  - rewrite IH; [reflexivity|]. intros Hin. apply H. right. exact Hin.
Qed.

(** Storing the selected items of a mapping with distinct keys one by one
    appends them in order. *)
Lemma fold_dict_set_filter {V : Type} (P : string -> bool)
    (items : dict V) :
  forall d,
    NoDup (dict_keys d ++ dict_keys items) ->
    fold_left (fun acc kv => if P (fst kv)
                             then dict_set (fst kv) (snd kv) acc else acc)
      items d
    = (d ++ filter (fun kv => P (fst kv)) items)%list.
Proof.
  unfold dict_keys.
  induction items as [|[k x] t IH]; intros d Hnd; cbn [fold_left filter fst snd].
  - rewrite app_nil_r. reflexivity.
  - cbn [map fst] in Hnd.
    destruct (P k).
    + rewrite dict_set_fresh.
      * rewrite IH.
        -- rewrite <- app_assoc. reflexivity.
        -- rewrite map_app, <- app_assoc. exact Hnd.
      * intros Hin. apply NoDup_remove_2 in Hnd. apply Hnd.
        apply in_or_app. left. exact Hin.
    + apply IH. apply NoDup_remove_1 in Hnd. exact Hnd.
Qed.

Lemma traefik_fold_labels (items : dict pyval) :
  forall s,
    traefik_labels (fold_left traefik_step items s) =
    fold_left (fun acc kv => if is_traefik_label (fst kv)
                             then dict_set (fst kv) (snd kv) acc else acc)
      items (traefik_labels s).
Proof.
  induction items as [|[k x] t IH]; intros s; cbn [fold_left]; [reflexivity|].
  rewrite IH. unfold traefik_step, is_traefik_label. cbn [fst snd].
  destruct (PyStr.startswith k "traefik."); reflexivity.
Qed.

Lemma caddy_fold_labels (items : dict pyval) :
  forall s,
    caddy_labels (fold_left caddy_step items s) =
    fold_left (fun acc kv => if is_caddy_label (fst kv)
                             then dict_set (fst kv) (snd kv) acc else acc)
      items (caddy_labels s).
Proof.
  induction items as [|[k x] t IH]; intros s; cbn [fold_left]; [reflexivity|].
  rewrite IH. unfold caddy_step, is_caddy_label. cbn [fst snd].
  destruct (PyStr.startswith k "caddy" || _); reflexivity.
Qed.

Lemma traefik_fold_keeps (items : dict pyval) :
  forall s,
    nginx_proxy_env (fold_left traefik_step items s) = nginx_proxy_env s
    /\ caddy_labels (fold_left traefik_step items s) = caddy_labels s.
Proof.
  induction items as [|[k x] t IH]; intros s; cbn [fold_left]; [auto|].
  destruct (IH (traefik_step s (k, x))) as [-> ->].
  unfold traefik_step. destruct (PyStr.startswith k "traefik."); auto.
Qed.

Lemma caddy_fold_keeps_env (items : dict pyval) :
  forall s,
    nginx_proxy_env (fold_left caddy_step items s) = nginx_proxy_env s.
Proof.
  induction items as [|[k x] t IH]; intros s; cbn [fold_left]; [reflexivity|].
  rewrite IH. unfold caddy_step.
  destruct (PyStr.startswith k "caddy" || _); reflexivity.
Qed.

Lemma nginx_fold_env (env : dict string) (s : proxy_signals) :
  nginx_proxy_env s = [] ->
  nginx_proxy_env (fold_left (nginx_step env) nginx_proxy_vars s)
  = nginx_subset env.
Proof.
  intros Hs. unfold nginx_subset, nginx_proxy_vars, nginx_step.
  cbn [fold_left flat_map].
  destruct (dict_get "VIRTUAL_HOST" env);
    destruct (dict_get "VIRTUAL_PORT" env);
    destruct (dict_get "LETSENCRYPT_HOST" env);
    destruct (dict_get "LETSENCRYPT_EMAIL" env);
    cbn [nginx_proxy_env]; rewrite ?Hs; reflexivity.
Qed.

(** X2. What signal extraction returns, when the label keys are distinct: the
    Traefik subset is the labels whose key starts with [traefik.], the Caddy
    subset those whose key starts with [caddy] or mentions
    [caddy.reverse_proxy], both in label order; the nginx-proxy subset is
    the four recognised variables the parsed environment defines. *)
Theorem detect_proxy_signals_subsets (c : pyval) (labels : dict pyval)
    (env_list : list pyval) (env : dict string) :
  config_field c "Labels" (PDict []) = Ok (PDict labels) ->
  NoDup (dict_keys labels) ->
  config_field c "Env" (PList []) = Ok (PList env_list) ->
  parse_env env_list [] = Ok env ->
  exists s,
    detect_proxy_signals c = Ok s
    /\ traefik_labels s = filter (fun kv => is_traefik_label (fst kv)) labels
    /\ caddy_labels s = filter (fun kv => is_caddy_label (fst kv)) labels
    /\ nginx_proxy_env s = nginx_subset env.
Proof.
  intros Hl Hnd He Hp. exists (signals_of labels env).
  split.
  { unfold detect_proxy_signals. rewrite Hl, He. cbn [bind py_iter].
    rewrite Hp. reflexivity. }
  unfold signals_of. split; [|split].
  - rewrite caddy_fold_keeps.
    rewrite (proj1 (nginx_fold_keeps env nginx_proxy_vars _)).
    rewrite traefik_fold_labels.
    apply (fold_dict_set_filter is_traefik_label labels []). exact Hnd.
  - rewrite caddy_fold_labels.
    rewrite (proj2 (nginx_fold_keeps env nginx_proxy_vars _)).
    rewrite (proj2 (traefik_fold_keeps labels no_signals)).
    apply (fold_dict_set_filter is_caddy_label labels []). exact Hnd.
  - rewrite caddy_fold_keeps_env. apply nginx_fold_env.
    apply (proj1 (traefik_fold_keeps labels no_signals)).
Qed.

Ltac distinct_keys :=
  repeat (constructor; [cbn; intuition discriminate|]); constructor.

Lemma detect_proxy_signals_subsets_witness :
  exists s,
    detect_proxy_signals Samples.mixed = Ok s
    /\ dict_keys (traefik_labels s) = ["traefik.enable"]
    /\ dict_keys (caddy_labels s) = ["caddy"; "x.Caddy.Reverse_Proxy"]
    /\ nginx_proxy_env s =
       [("VIRTUAL_HOST", "b.example");
        ("LETSENCRYPT_EMAIL", "ops@shop.example")].
Proof.
  destruct (detect_proxy_signals_subsets Samples.mixed _ _ _
              eq_refl ltac:(cbn; distinct_keys) eq_refl eq_refl)
    as (s & Hs & Ht & Hc & Hn).
  exists s. split; [exact Hs|].
  rewrite Ht, Hc, Hn. repeat split; reflexivity.
Defined.

(* ====================================================================== *)
(** * Further properties: published ports *)

Lemma published_loop_spec (items : dict pyval) :
  forallb (fun kv => bindings_ok (snd kv)) items = true ->
  forall acc,
    NoDup (dict_keys acc ++ dict_keys items) ->
    exists p,
      published_loop items acc = Ok (acc ++ p)%list
      /\ Forall2 published_from (filter (fun kv => truthy (snd kv)) items) p.
Proof.
  unfold dict_keys.
  induction items as [|[port x] t IH]; intros Hok acc Hnd;
    cbn [published_loop filter snd].
  - exists []. rewrite app_nil_r. split; [reflexivity | constructor].
  - cbn [forallb snd] in Hok. apply andb_prop in Hok.
    destruct Hok as [Hx Ht]. cbn [map fst] in Hnd.
    destruct (truthy x) eqn:Ex.
    + destruct (bindings_truthy x Hx Ex) as (b & bs & -> & Hbs).
      destruct (map_res_format_binding _ Hbs) as (strs & Estrs & Hlen).
      cbn [py_iter bind]. rewrite Estrs. cbn [bind].
      rewrite dict_set_fresh.
      * destruct (IH Ht (acc ++ [(port, strs)])%list) as (p & Hp & HF).
        { rewrite map_app, <- app_assoc. exact Hnd. }
        exists ((port, strs) :: p). rewrite Hp, <- app_assoc.
        split; [reflexivity|]. constructor; [|exact HF].
        split; [reflexivity|]. exists (b :: bs).
        repeat split; auto. discriminate.
      * intros Hin. apply NoDup_remove_2 in Hnd. apply Hnd.
        apply in_or_app. left. exact Hin.
    + apply (IH Ht). apply NoDup_remove_1 in Hnd. exact Hnd.
Qed.

(** X3. On a port mapping with distinct keys whose values are [null] or lists
    of bindings, the published ports are, in order, the ports that have at
    least one binding, each with one rendered address per binding; ports
    with [null] or no binding are left out. *)
Theorem get_published_ports_spec (c : pyval) (ports : dict pyval) :
  network_setting c "Ports" = Ok (PDict ports) ->
  NoDup (dict_keys ports) ->
  forallb (fun kv => bindings_ok (snd kv)) ports = true ->
  exists published,
    get_published_ports c = Ok published
    /\ Forall2 published_from
         (filter (fun kv => truthy (snd kv)) ports) published.
Proof.
  intros Hp Hnd Hok.
  destruct (published_loop_spec ports Hok [] Hnd) as (p & Hloop & HF).
  exists p. split; [|exact HF].
  unfold get_published_ports. rewrite Hp. cbn [bind py_items]. exact Hloop.
Qed.

Lemma get_published_ports_spec_witness :
  exists published,
    get_published_ports Samples.mixed = Ok published
    /\ published = [("80/tcp", ["0.0.0.0:8081"; ":::8081"])].
Proof.
  destruct (get_published_ports_spec Samples.mixed _ eq_refl
              ltac:(cbn; distinct_keys) eq_refl)
    as (p & Hp & _).
  exists p. split; [exact Hp|].
  vm_compute in Hp. injection Hp as <-. reflexivity.
Defined.

(** A binding whose address and port are strings is rendered as
    [address:port]. *)
Lemma format_binding_strings (d : dict pyval) (ip port : string) :
  dict_get "HostIp" d = Some (PStr ip) ->
  dict_get "HostPort" d = Some (PStr port) ->
  format_binding (PDict d) = Ok (ip ++ ":" ++ port).
Proof.
  intros Hi Hp. unfold format_binding. cbn [py_getitem bind].
  rewrite Hi. cbn [bind]. rewrite Hp. reflexivity.
Qed.

(* ====================================================================== *)
(** * Further properties: recommended labels *)

Lemma replace_twice (a b : ascii) (s : string) :
  PyStr.replace a b (PyStr.replace a b s) = PyStr.replace a b s.
Proof.
  induction s as [|c t IH]; cbn [PyStr.replace]; [reflexivity|].
  rewrite IH. destruct (Ascii.eqb c a) eqn:E; [|rewrite E; reflexivity].
  destruct (Ascii.eqb b a); reflexivity.
Qed.

Lemma replace_removes (a b : ascii) (s : string) :
  a <> b -> PyStr.contains (String a EmptyString) (PyStr.replace a b s) = false.
Proof.
  intros Hab. induction s as [|c t IH]; cbn; [reflexivity|].
  rewrite IH, orb_false_r, andb_true_r.
  destruct (Ascii.eqb c a) eqn:E.
  - apply Ascii.eqb_neq. exact Hab.
  - rewrite Ascii.eqb_sym. exact E.
Qed.

Lemma replace_keeps_absent (a b x : ascii) (s : string) :
  x <> b ->
  PyStr.contains (String x EmptyString) s = false ->
  PyStr.contains (String x EmptyString) (PyStr.replace a b s) = false.
Proof.
  intros Hxb. induction s as [|c t IH]; cbn; [reflexivity|].
  rewrite !andb_true_r. intros H. apply orb_false_elim in H.
  destruct H as [Hc Ht]. rewrite (IH Ht), orb_false_r.
  destruct (Ascii.eqb c a); [apply Ascii.eqb_neq; exact Hxb | exact Hc].
Qed.

Lemma replace_length (a b : ascii) (s : string) :
  String.length (PyStr.replace a b s) = String.length s.
Proof. induction s as [|c t IH]; cbn; congruence. Qed.

Lemma replace_commute (a b c : ascii) (s : string) :
  a <> c -> b <> c -> a <> b ->
  PyStr.replace a c (PyStr.replace b c s)
  = PyStr.replace b c (PyStr.replace a c s).
Proof.
  intros Hac Hbc Hab. induction s as [|x t IH]; cbn [PyStr.replace];
    [reflexivity|].
  rewrite IH. f_equal.
  destruct (Ascii.eqb x b) eqn:Eb; destruct (Ascii.eqb x a) eqn:Ea;
    rewrite ?Eb, ?Ea; try reflexivity.
  - apply Ascii.eqb_eq in Eb. apply Ascii.eqb_eq in Ea. congruence.
  - destruct (Ascii.eqb c a) eqn:E; [|reflexivity].
    apply Ascii.eqb_eq in E. congruence.
  - destruct (Ascii.eqb c b) eqn:E; [|reflexivity].
    apply Ascii.eqb_eq in E. congruence.
Qed.

(** X4. The routing identifier made from a container name never contains [-]
    or [.], has the name's length, and making it again changes nothing. *)
Theorem safe_name_clean (name : string) :
  PyStr.contains "-" (safe_name name) = false
  /\ PyStr.contains "." (safe_name name) = false
  /\ String.length (safe_name name) = String.length name
  /\ safe_name (safe_name name) = safe_name name.
Proof.
  unfold safe_name. split; [|split; [|split]].
  - apply replace_keeps_absent; [discriminate|].
    apply replace_removes. discriminate.
  - apply replace_removes. discriminate.
  - rewrite !replace_length. reflexivity.
  - rewrite (replace_commute "-"%char "."%char "_"%char
               (PyStr.replace "-"%char "_"%char name))
      by discriminate.
    rewrite !replace_twice. reflexivity.
Qed.

Lemma append_cancel (p a b : string) : p ++ a = p ++ b -> a = b.
Proof.
  induction p as [|c p IH]; cbn; intros H; [exact H|].
  injection H as H. auto.
Qed.

Lemma dict_of_list_distinct {V : Type} (l : list (string * V)) :
  NoDup (dict_keys l) -> dict_of_list l = l.
Proof.
  intros Hnd. unfold dict_of_list.
  pose proof (fold_dict_set_filter (fun _ => true) l [] Hnd) as H.
  cbn beta iota in H. rewrite H. cbn [app].
  clear. induction l as [|kv t IH]; cbn; [reflexivity|]. f_equal. exact IH.
Qed.

Ltac different_keys H :=
  first [ discriminate H
        | cbn in H; discriminate H
        | apply append_cancel in H; apply append_cancel in H; discriminate H ].

Lemma recommended_keys_distinct (x : string) (v1 v2 v3 v4 v5 : string) :
  NoDup (dict_keys
           [("traefik.enable", v1);
            ("traefik.http.routers." ++ x ++ ".rule", v2);
            ("traefik.http.routers." ++ x ++ ".entrypoints", v3);
            ("traefik.http.routers." ++ x ++ ".tls", v4);
            ("traefik.http.services." ++ x ++ ".loadbalancer.server.port",
             v5)]).
Proof.
  unfold dict_keys. cbn [map fst].
  repeat (constructor;
          [cbn [In]; intros H;
           repeat (destruct H as [H|H]; [different_keys H|]); exact H|]).
  constructor.
Qed.

Lemma recommended_labels_five (c : pyval) (labels : dict string) :
  generate_recommended_labels c = Ok labels ->
  exists name port,
    container_name c = Ok name
    /\ length labels = 5
    /\ NoDup (dict_keys labels)
    /\ dict_get "traefik.enable" labels = Some "true"
    /\ dict_get (port_label name) labels = Some port
    /\ In port HTTP_SERVICE_PORTS.
Proof.
  unfold generate_recommended_labels. intros H.
  apply bind_inv in H. destruct H as (name & Hn & H).
  apply bind_inv in H. destruct H as (exposed & Hx & H).
  injection H as <-.
  exists name. eexists. split; [exact Hn|].
  split; [|split; [|split; [|split]]].
  - rewrite dict_of_list_distinct by apply recommended_keys_distinct.
    reflexivity.
  - rewrite dict_of_list_distinct by apply recommended_keys_distinct.
    apply recommended_keys_distinct.
  - rewrite dict_of_list_distinct by apply recommended_keys_distinct.
    reflexivity.
  - unfold dict_of_list. cbn [fold_left fst snd].
    rewrite dict_get_set. unfold port_label. rewrite String.eqb_refl.
    reflexivity.
  - destruct (find is_http_port exposed) as [p|] eqn:Ef.
    + apply find_some in Ef. destruct Ef as [_ Hp].
      unfold is_http_port, PyStr.mem in Hp.
      apply existsb_exists in Hp. destruct Hp as (q & Hq & Heq).
      apply String.eqb_eq in Heq. rewrite Heq. exact Hq.
    + left. reflexivity.
Qed.

(** X5. Whenever label recommendation returns, the label set has exactly five
    entries under five different keys, it enables routing, and the
    load-balancer port it names is one of the well-known HTTP ports. *)
Theorem recommended_labels_shape (c : pyval) (labels : dict string) :
  generate_recommended_labels c = Ok labels ->
  exists name port,
    container_name c = Ok name
    /\ length labels = 5
    /\ NoDup (dict_keys labels)
    /\ dict_get "traefik.enable" labels = Some "true"
    /\ dict_get (port_label name) labels = Some port
    /\ In port HTTP_SERVICE_PORTS.
Proof. apply recommended_labels_five. Qed.

Lemma recommended_labels_shape_witness :
  exists labels,
    generate_recommended_labels Samples.mixed = Ok labels
    /\ length labels = 5
    /\ dict_get (port_label "shop") labels = Some "80".
Proof.
  eexists. split; [reflexivity|].
  destruct (recommended_labels_shape Samples.mixed _ eq_refl)
    as (name & port & _ & Hlen & _).
  split; [exact Hlen | reflexivity].
Defined.

(** X6. In the entry the loop builds for a record that is not a reverse proxy,
    recommendations go with candidacy: a candidate gets the five labels and
    the single host name [<name>.local]; any other entry gets no label and
    no host name. *)
Theorem recommendations_only_for_candidates (c : pyval) (e : analysis_entry) :
  inspected c = true ->
  analyze_container c = Ok (inr e) ->
  if e_candidate_for_migration e
  then length (e_recommended_labels e) = 5
       /\ e_recommended_hostnames e = [e_container_name e ++ ".local"]
  else e_recommended_labels e = [] /\ e_recommended_hostnames e = [].
Proof.
  intros I He.
  destruct (analyze_container_inspected c I)
    as [(_ & rp & Hrp) | (_ & e' & name & reason & He' & _ & Hname & _ & _ & _
                          & Hhost & Hlab)].
  - rewrite He in Hrp. discriminate.
  - rewrite He in He'. injection He' as <-.
    destruct (e_candidate_for_migration e).
    + destruct (recommended_labels_five c _ Hlab) as (n & p & _ & Hlen & _).
      rewrite Hname. auto.
    + auto.
Qed.

Lemma recommendations_only_for_candidates_witness :
  exists e,
    analyze_container Samples.redis = Ok (inr e)
    /\ e_candidate_for_migration e = false
    /\ e_recommended_labels e = [] /\ e_recommended_hostnames e = [].
Proof.
  eexists. split; [reflexivity|]. split; [reflexivity|].
  exact (recommendations_only_for_candidates Samples.redis _ eq_refl eq_refl).
Defined.

(* ====================================================================== *)
(** * Further properties: the summary counters *)

Lemma sum_counts_set (k : string) (d : dict nat) :
  sum_counts (dict_set k (summary_count k d + 1) d) = sum_counts d + 1.
Proof.
  unfold summary_count.
  induction d as [|[k0 n0] t IH]; cbn [dict_set dict_get sum_counts fold_right snd].
  - lia.
  - destruct (String.eqb k0 k); cbn [sum_counts fold_right snd].
    + lia.
    + fold (sum_counts t) in *.
      fold (sum_counts (dict_set k
                          (match dict_get k t with Some n => n | None => 0 end
                           + 1) t)).
      rewrite IH. lia.
Qed.

Lemma count_step_eq (by_cls : dict nat) (candidates : nat)
    (e : analysis_entry) :
  count_step (by_cls, candidates) e =
  (dict_set (e_classification e)
     (summary_count (e_classification e) by_cls + 1) by_cls,
   if e_candidate_for_migration e then candidates + 1 else candidates).
Proof. reflexivity. Qed.

Lemma summary_count_set (cls k : string) (n : nat) (d : dict nat) :
  summary_count cls (dict_set k n d) =
  if String.eqb k cls then n else summary_count cls d.
Proof.
  unfold summary_count. rewrite dict_get_set.
  destruct (String.eqb k cls); reflexivity.
Qed.

Lemma count_step_fold (inventory : list analysis_entry) :
  forall acc : dict nat * nat,
    let r := fold_left count_step inventory acc in
    snd r = snd acc + count_candidates inventory
    /\ sum_counts (fst r) = sum_counts (fst acc) + length inventory
    /\ (forall cls, summary_count cls (fst r)
                    = summary_count cls (fst acc)
                      + count_classified cls inventory)
    /\ (forall cls, dict_has cls (fst r) = true <->
                    dict_has cls (fst acc) = true
                    \/ 0 < count_classified cls inventory).
Proof.
  unfold count_candidates, count_classified.
  induction inventory as [|e t IH]; intros [by_cls candidates];
    cbn [fold_left filter length].
  - cbn [fst snd length].
    split; [lia|]. split; [lia|]. split; [intros cls; lia|].
    intros cls. split; [tauto|]. intros [H|H]; [exact H | lia].
  - rewrite count_step_eq.
    specialize (IH (dict_set (e_classification e)
                      (summary_count (e_classification e) by_cls + 1) by_cls,
                    if e_candidate_for_migration e
                    then candidates + 1 else candidates)).
    cbv zeta in IH |- *. cbn [fst snd] in IH |- *.
    destruct IH as (Hc & Hs & Hn & Hh).
    split; [|split; [|split]].
    + rewrite Hc. destruct (e_candidate_for_migration e); cbn [length]; lia.
    + rewrite Hs, sum_counts_set. lia.
    + intros cls. rewrite Hn, summary_count_set.
      destruct (String.eqb (e_classification e) cls) eqn:E; cbn [length].
      * apply String.eqb_eq in E. rewrite E. lia.
      * lia.
    + intros cls. rewrite Hh. unfold dict_has at 1. rewrite dict_get_set.
      destruct (String.eqb (e_classification e) cls) eqn:E; cbn [length].
      * split; [intros _; right; lia | intros _; left; reflexivity].
      * fold (dict_has cls by_cls). tauto.
Qed.

(** X7. Whenever the manifest is built, its counters agree with its lists: the
    total is the number of analysis entries, the per-classification counts
    add up to it, a classification has a count exactly when an entry has it
    and the count is the number of such entries, and the candidate counter
    is the number of entries marked as candidates. *)
Theorem summary_counters (snapshot : list pyval) (m : manifest) :
  build_manifest snapshot = Ok m ->
  total_containers m = length (containers m)
  /\ reverse_proxies_detected m = length (reverse_proxies m)
  /\ sum_counts (by_classification m) = total_containers m
  /\ migration_candidates m = count_candidates (containers m)
  /\ (forall cls,
         summary_count cls (by_classification m)
         = count_classified cls (containers m))
  /\ (forall cls,
         dict_has cls (by_classification m) = true <->
         0 < count_classified cls (containers m)).
Proof.
  unfold build_manifest. intros H.
  apply bind_inv in H. destruct H as ([rps inventory] & _ & H).
  match type of H with
  | context [fold_left count_step inventory ?acc] =>
      pose proof (count_step_fold inventory acc) as Hf
  end.
  cbv zeta in Hf. revert Hf H.
  destruct (fold_left count_step inventory _) as [by_cls candidates].
  cbn [fst snd]. intros (Hc & Hs & Hn & Hh) H.
  injection H as <-.
  cbn [total_containers reverse_proxies_detected by_classification
       migration_candidates reverse_proxies containers].
  split; [reflexivity|]. split; [reflexivity|].
  split; [exact Hs|]. split; [exact Hc|]. split; [exact Hn|].
  intros cls. rewrite Hh. split.
  - intros [H|H]; [discriminate | exact H].
  - intros H. right. exact H.
Qed.

Lemma summary_counters_witness :
  exists m,
    build_manifest [Samples.api; Samples.traefik; Samples.redis;
                    Samples.enabled; Samples.api_exposing_80] = Ok m
    /\ total_containers m = 4
    /\ sum_counts (by_classification m) = 4
    /\ summary_count "exposed_directly" (by_classification m) = 2
    /\ migration_candidates m = 2.
Proof.
  eexists. split; [reflexivity|].
  pose proof (summary_counters _ _
                (eq_refl : build_manifest
                             [Samples.api; Samples.traefik; Samples.redis;
                              Samples.enabled; Samples.api_exposing_80]
                           = Ok _)) as (Ht & _ & Hs & Hc & Hn & _).
  split; [reflexivity|]. split; [rewrite Hs; reflexivity|].
  split; [rewrite Hn; reflexivity | rewrite Hc; reflexivity].
Defined.

(* ====================================================================== *)
(** * Further properties: risk notes *)

Lemma non_http_notes_in (x : string) (exposed : list string) :
  In x (flat_map (fun port => if is_http_port port then []
                              else [non_http_note port]) exposed)
  <-> exists port, In port exposed /\ is_http_port port = false
                   /\ x = non_http_note port.
Proof.
  rewrite in_flat_map. split.
  - intros (port & Hin & Hx). exists port.
    destruct (is_http_port port); [destruct Hx|].
    destruct Hx as [<-|[]]. auto.
  - intros (port & Hin & Hno & ->). exists port. rewrite Hno.
    split; [exact Hin | left; reflexivity].
Qed.

Lemma stateful_notes_repeat (image : string) (l : list string) :
  flat_map (fun svc => if PyStr.contains svc image then [stateful_note]
                       else []) l
  = repeat stateful_note
      (length (filter (fun svc => PyStr.contains svc image) l)).
Proof.
  induction l as [|svc t IH]; cbn [flat_map filter]; [reflexivity|].
  destruct (PyStr.contains svc image); cbn [length repeat app]; congruence.
Qed.

Lemma analyze_risks_reads_eq (c : pyval) (v : view)
    (published : dict (list string)) :
  reads c v ->
  analyze_risks c published =
  Ok ((if Nat.ltb 1 (length published) then [multiple_ports_note] else [])
      ++ flat_map (fun port => if is_http_port port then []
                               else [non_http_note port])
           (dict_keys (v_exposed v))
      ++ (if existsb (fun k => PyStr.contains "auth" (PyStr.lower k))
               (dict_keys (v_labels v))
          then [auth_note] else [])
      ++ flat_map (fun svc => if PyStr.contains svc (v_image v)
                              then [stateful_note] else [])
           stateful)%list.
Proof.
  intros R. unfold analyze_risks.
  rewrite (get_exposed_ports_reads _ _ R), (r_labels _ _ R), (r_image _ _ R).
  cbn [bind py_iter]. rewrite any_key_contains_keys. reflexivity.
Qed.

(** X8. The notes a well-formed record gets: the multiple-ports note exactly
    when more than one port is published, one note for each exposed port
    whose number is not an HTTP one, the authentication note exactly when
    a label key mentions "auth" in any letter case, and the stateful-service
    note once for every listed database name the image reference contains,
    repeated when several match. *)
Theorem risk_notes (c : pyval) (published : dict (list string)) :
  well_typed c = true ->
  exists risks image exposed labels,
    analyze_risks c published = Ok risks
    /\ image_lower c = Ok image
    /\ get_exposed_ports c = Ok exposed
    /\ config_field c "Labels" (PDict []) = Ok (PDict labels)
    /\ (In multiple_ports_note risks <-> 1 < length published)
    /\ (forall port, In port exposed -> is_http_port port = false ->
                     In (non_http_note port) risks)
    /\ (In auth_note risks <->
        exists k, In k (dict_keys labels)
                  /\ PyStr.contains "auth" (PyStr.lower k) = true)
    /\ count_occ string_dec risks stateful_note
       = length (filter (fun svc => PyStr.contains svc image) stateful).
Proof.
  intros W. destruct (well_typed_reads c W) as (v & R).
  eexists. exists (v_image v), (dict_keys (v_exposed v)), (v_labels v).
  split; [apply (analyze_risks_reads_eq c v published R)|].
  split; [exact (r_image _ _ R)|].
  split; [apply (get_exposed_ports_reads _ _ R)|].
  split; [exact (r_labels _ _ R)|].
  rewrite stateful_notes_repeat.
  set (n := length (filter _ stateful)).
  split; [|split; [|split]].
  - rewrite !in_app_iff, non_http_notes_in. split.
    + intros [H|[(port & _ & _ & H)|[H|H]]].
      * destruct (Nat.ltb 1 (length published)) eqn:E; [|destruct H].
        apply Nat.ltb_lt. exact E.
      * discriminate H.
      * destruct (existsb _ _); [|destruct H].
        destruct H as [H|[]]. discriminate H.
      * apply repeat_spec in H. discriminate H.
    + intros H. left. apply Nat.ltb_lt in H. rewrite H. left. reflexivity.
  - intros port Hin Hno. rewrite !in_app_iff, non_http_notes_in.
    right. left. exists port. auto.
  - rewrite !in_app_iff, non_http_notes_in. split.
    + intros [H|[(port & _ & _ & H)|[H|H]]].
      * destruct (Nat.ltb 1 (length published)); [|destruct H].
        destruct H as [H|[]]. discriminate H.
      * discriminate H.
      * destruct (existsb _ _) eqn:E; [|destruct H].
        apply existsb_exists in E. exact E.
      * apply repeat_spec in H. discriminate H.
    + intros H. right. right. left.
      rewrite (proj2 (existsb_exists _ _) H). left. reflexivity.
  - rewrite !count_occ_app.
    rewrite (proj1 (count_occ_not_In string_dec
                      (if Nat.ltb _ _ then _ else _) stateful_note)).
    2: { destruct (Nat.ltb 1 (length published)); [|intros []].
         intros [H|[]]. discriminate H. }
    rewrite (proj1 (count_occ_not_In string_dec (flat_map _ _)
                      stateful_note)).
    2: { intros H. apply non_http_notes_in in H.
         destruct H as (port & _ & _ & H). discriminate H. }
    rewrite (proj1 (count_occ_not_In string_dec
                      (if existsb _ _ then _ else _) stateful_note)).
    2: { destruct (existsb _ _); [|intros []].
         intros [H|[]]. discriminate H. }
    cbn [Nat.add]. clear. induction n as [|n IH]; cbn [repeat count_occ].
    + reflexivity.
    + destruct (string_dec stateful_note stateful_note);
        [congruence | contradiction].
Qed.

Lemma risk_notes_witness :
  exists risks,
    analyze_risks Samples.redis [("6379/tcp", ["0.0.0.0:6379"]);
                                 ("16379/tcp", ["0.0.0.0:16379"])]
    = Ok risks
    /\ In multiple_ports_note risks
    /\ In (non_http_note "6379/tcp") risks
    /\ count_occ string_dec risks stateful_note = 1.
Proof.
  destruct (risk_notes Samples.redis
              [("6379/tcp", ["0.0.0.0:6379"]); ("16379/tcp", ["0.0.0.0:16379"])]
              eq_refl)
    as (risks & image & exposed & labels & Hr & Hi & Hx & _ & Hm & Hn & _ & Hc).
  exists risks. split; [exact Hr|].
  vm_compute in Hi. injection Hi as <-.
  vm_compute in Hx. injection Hx as <-.
  split; [apply Hm; cbn; lia|].
  split; [apply Hn; [left; reflexivity | reflexivity]|].
  rewrite Hc. reflexivity.
Defined.

(* ====================================================================== *)
(** * Further properties: the classifier and candidacy *)

(** X9. On every well-formed record the classifier returns one of the five
    documented categories. *)
Theorem classify_range (c : pyval) :
  well_typed c = true ->
  exists cls, classify_container c = Ok cls /\ In cls CLASSIFICATIONS.
Proof.
  intros W.
  destruct (well_typed_classify c W)
    as (s & published & nets & _ & _ & _ & _ & _ & Hc).
  eexists. split; [exact Hc|]. unfold classify_rule, CLASSIFICATIONS.
  destruct (rule1 s nets); [cbn; auto|].
  destruct (rule2 s); [cbn; auto|].
  destruct (_ && _); [cbn; auto|].
  destruct (_ && _); cbn; auto 6.
Qed.

Lemma classify_range_witness :
  well_typed Samples.mixed = true
  /\ exists cls, classify_container Samples.mixed = Ok cls
                 /\ In cls CLASSIFICATIONS.
Proof.
  split; [reflexivity|]. exact (classify_range Samples.mixed eq_refl).
Defined.

(** X10. The classifier's precedence on a well-formed record: rule 1 alone
    decides [already_proxied_traefik]; rule 2 decides
    [already_proxied_other] once rule 1 has failed; without any signal the
    published ports tell [exposed_directly] from [internal_only]; and what
    is left, signals that match neither rule, is [unknown_needs_review]. *)
Theorem classification_table (c : pyval) (s : proxy_signals)
    (published : dict (list string)) (nets : list string) :
  well_typed c = true ->
  detect_proxy_signals c = Ok s ->
  get_published_ports c = Ok published ->
  container_networks c = Ok nets ->
  (classify_container c = Ok "already_proxied_traefik"
   <-> rule1 s nets = true)
  /\ (classify_container c = Ok "already_proxied_other"
      <-> rule1 s nets = false /\ rule2 s = true)
  /\ (classify_container c = Ok "exposed_directly"
      <-> has_proxy_signals s = false /\ published <> [])
  /\ (classify_container c = Ok "internal_only"
      <-> has_proxy_signals s = false /\ published = [])
  /\ (classify_container c = Ok "unknown_needs_review"
      <-> rule1 s nets = false /\ rule2 s = false
          /\ has_proxy_signals s = true).
Proof.
  intros W Hs Hp Hn.
  destruct (well_typed_classify c W)
    as (s' & published' & nets' & Hs' & Hp' & Hn' & Hflag & _ & Hc).
  rewrite Hs in Hs'. injection Hs' as <-.
  rewrite Hp in Hp'. injection Hp' as <-.
  rewrite Hn in Hn'. injection Hn' as <-.
  rewrite Hc. unfold classify_rule, rule1, rule2. rewrite Hflag.
  destruct (nonempty (traefik_labels s));
    destruct (nonempty (nginx_proxy_env s));
    destruct (nonempty (caddy_labels s));
    destruct (String.eqb (PyStr.lower (enable_value s)) "true"
              || is_in_proxy_network nets);
    destruct published; cbn;
    repeat split; intros; try discriminate; try reflexivity;
    try congruence;
    repeat match goal with
           | H : _ /\ _ |- _ => destruct H
           end;
    try discriminate; try congruence.
Qed.

Lemma classification_table_witness :
  well_typed Samples.mixed = true
  /\ classify_container Samples.mixed = Ok "already_proxied_traefik"
  /\ classify_container Samples.redis = Ok "internal_only".
Proof.
  split; [reflexivity|]. split.
  - refine (proj2 (proj1 (classification_table Samples.mixed _ _ _
                            eq_refl eq_refl eq_refl eq_refl)) _).
    reflexivity.
  - refine (proj2 (proj1 (proj2 (proj2 (proj2
              (classification_table Samples.redis _ _ _
                 eq_refl eq_refl eq_refl eq_refl))))) _).
    split; reflexivity.
Defined.

(** X11. A well-formed record that carries any proxy signal is never a migration
    candidate under its own classification; so a candidate has no signal,
    is not a reverse proxy and is an HTTP service. *)
Theorem signals_exclude_candidacy (c : pyval) (s : proxy_signals)
    (cls : string) :
  well_typed c = true ->
  detect_proxy_signals c = Ok s ->
  classify_container c = Ok cls ->
  (has_proxy_signals s = true ->
   exists reason, is_candidate_for_migration c cls = Ok (false, reason))
  /\ (forall reason,
         is_candidate_for_migration c cls = Ok (true, reason) ->
         has_proxy_signals s = false
         /\ is_reverse_proxy c = Ok false
         /\ is_http_service c = Ok true).
Proof.
  intros W Hs Hcls.
  destruct (well_typed_reads c W) as (v & R).
  destruct (well_typed_classify c W)
    as (s' & published & nets & Hs' & _ & _ & Hflag & _ & Hc).
  rewrite Hs in Hs'. injection Hs' as <-.
  rewrite Hcls in Hc. injection Hc as ->.
  rewrite (is_candidate_reads c v _ R), (is_reverse_proxy_reads c v R),
    (is_http_service_reads c v R).
  unfold classify_rule.
  destruct (reverse_proxy_rule v).
  { split; [eauto | discriminate]. }
  destruct (rule1 s nets); [cbn; split; [eauto | discriminate]|].
  destruct (rule2 s); [cbn; split; [eauto | discriminate]|].
  destruct (has_proxy_signals s).
  - rewrite !andb_false_r. cbn. split; [eauto | discriminate].
  - split; [discriminate|]. intros reason H.
    destruct (nonempty published); cbn in H;
      destruct (http_service_rule v); try discriminate; auto.
Qed.

Lemma signals_exclude_candidacy_witness :
  well_typed Samples.stray_published = true
  /\ exists reason,
       is_candidate_for_migration Samples.stray_published
         "unknown_needs_review" = Ok (false, reason).
Proof.
  split; [reflexivity|].
  exact (proj1 (signals_exclude_candidacy Samples.stray_published _ _
                  eq_refl eq_refl eq_refl) eq_refl).
Defined.

(** X12. The classifier reads the label map, the environment list, the port map
    and the network map and nothing else: records that agree on these four
    are classified alike, whatever their image, name or exposed ports. *)
Theorem classification_ignores_image (c c' : pyval) :
  config_field c "Labels" (PDict []) = config_field c' "Labels" (PDict []) ->
  config_field c "Env" (PList []) = config_field c' "Env" (PList []) ->
  network_setting c "Ports" = network_setting c' "Ports" ->
  network_setting c "Networks" = network_setting c' "Networks" ->
  classify_container c = classify_container c'.
Proof.
  intros Hl He Hp Hn.
  unfold classify_container, detect_proxy_signals, get_published_ports,
    container_networks.
  rewrite Hl, He, Hp, Hn. reflexivity.
Qed.

Lemma classification_ignores_image_witness :
  let renamed :=
    Samples.record "0123456789abcdef" "/edge" "traefik:v3" "running" [] []
      ["80/tcp"] [("8080/tcp", PList [Samples.binding "0.0.0.0" "8080"])]
      ["bridge"] in
  classify_container renamed = classify_container Samples.api
  /\ is_reverse_proxy renamed = Ok true
  /\ is_reverse_proxy Samples.api = Ok false.
Proof.
  intros renamed. split; [|split; reflexivity].
  apply (classification_ignores_image renamed Samples.api); reflexivity.
Defined.

(* ====================================================================== *)
(** * Further properties: substring tests *)

Lemma startswith_spec (s p : string) :
  PyStr.startswith s p = true <-> exists b, s = p ++ b.
Proof.
  revert s. induction p as [|a p IH]; intros s; cbn [PyStr.startswith].
  - split; [intros _; exists s; reflexivity | reflexivity].
  - destruct s as [|c s].
    + split; [discriminate | intros (b & H); discriminate H].
    + rewrite andb_true_iff, IH. split.
      * intros (Hac & b & ->). apply Ascii.eqb_eq in Hac. subst c.
        exists b. reflexivity.
      * intros (b & H). cbn in H. injection H as -> ->.
        split; [apply Ascii.eqb_refl | exists b; reflexivity].
Qed.

(** [sub in s] holds exactly when [s] is some text, [sub], some text. *)
Lemma contains_spec (sub s : string) :
  PyStr.contains sub s = true <-> exists a b, s = a ++ sub ++ b.
Proof.
  induction s as [|c s IH]; cbn [PyStr.contains].
  - rewrite orb_false_r, startswith_spec. split.
    + intros (b & H). exists EmptyString, b. exact H.
    + intros ([|x a] & b & H); [|discriminate H]. exists b. exact H.
  - rewrite orb_true_iff, startswith_spec, IH. split.
    + intros [(b & H) | (a & b & H)].
      * exists EmptyString, b. exact H.
      * exists (String c a), b. cbn. rewrite H. reflexivity.
    + intros ([|x a] & b & H).
      * left. exists b. exact H.
      * right. cbn in H. injection H as -> ->. exists a, b. reflexivity.
Qed.

(** X14. An image reference that, lower-cased, has a known reverse-proxy name
    anywhere in it makes the container a reverse proxy without its ports or
    labels being read: the answer is true whatever the rest of the record
    holds, well-formed or not. *)
Theorem image_name_decides (c : pyval) (image proxy_image before after : string) :
  image_lower c = Ok image ->
  In proxy_image REVERSE_PROXY_IMAGES ->
  image = before ++ proxy_image ++ after ->
  is_reverse_proxy c = Ok true.
Proof.
  intros Hi Hp Himg. unfold is_reverse_proxy. rewrite Hi. cbn [bind].
  assert (E : existsb (fun p => PyStr.contains p image) REVERSE_PROXY_IMAGES
              = true).
  { apply existsb_exists. exists proxy_image. split; [exact Hp|].
    apply contains_spec. eauto. }
  rewrite E. reflexivity.
Qed.

Lemma image_name_decides_witness :
  is_reverse_proxy
    (PDict [("Config", PDict [("Image", PStr "ghcr.io/acme/My-NGINX-exporter:2")]);
            ("NetworkSettings", PNone)])
  = Ok true.
Proof.
  apply (image_name_decides _ "ghcr.io/acme/my-nginx-exporter:2" "nginx"
           "ghcr.io/acme/my-" "-exporter:2").
  - reflexivity.
  - cbn. auto.
  - reflexivity.
Defined.

(* ====================================================================== *)
(** * Further properties: a record that cannot be analysed *)

Lemma main_loop_raises (before after : list pyval) (c : pyval) (e : exn) :
  is_ok (map_res analyze_container before) = true ->
  analyze_container c = Raise e ->
  forall rps inventory,
    main_loop (before ++ c :: after) rps inventory = Raise e.
Proof.
  intros Hb Hc. induction before as [|b t IH]; intros rps inventory;
    cbn [app main_loop].
  - rewrite Hc. reflexivity.
  - cbn [map_res] in Hb.
    destruct (analyze_container b) as [r|]; cbn [bind] in *; [|discriminate].
    assert (Ht : is_ok (map_res analyze_container t) = true).
    { destruct (map_res analyze_container t); [reflexivity | discriminate]. }
    destruct r; apply IH; exact Ht.
Qed.

(** X15. The loop has no handler: when the body raises on a record, after
    succeeding on those before it, building the manifest raises the same
    exception and no partial manifest is produced, whatever follows. *)
Theorem manifest_all_or_nothing (before after : list pyval) (c : pyval)
    (e : exn) :
  is_ok (map_res analyze_container before) = true ->
  analyze_container c = Raise e ->
  build_manifest (before ++ c :: after) = Raise e.
Proof.
  intros Hb Hc. unfold build_manifest.
  rewrite (main_loop_raises before after c e Hb Hc). reflexivity.
Qed.

Lemma manifest_all_or_nothing_witness :
  build_manifest [Samples.api; Samples.bare; Samples.redis] = Raise KeyError.
Proof.
  apply (manifest_all_or_nothing [Samples.api] [Samples.redis] Samples.bare);
    reflexivity.
Defined.

(* ====================================================================== *)
(** * Further properties: HTTP services and nginx-proxy variables *)

Lemma mem_spec (x : string) (l : list string) :
  PyStr.mem x l = true <-> In x l.
Proof.
  unfold PyStr.mem. rewrite existsb_exists. split.
  - intros (y & Hin & H). apply String.eqb_eq in H. subst y. exact Hin.
  - intros H. exists x. split; [exact H | apply String.eqb_refl].
Qed.

(** X16. A well-formed record is an HTTP service exactly when the text before
    the first [/] of one of its exposed ports is a listed HTTP port, or its
    lower-cased image reference has one of the web patterns in it. *)
Theorem is_http_service_spec (c : pyval) (image : string)
    (exposed : list string) :
  well_typed c = true ->
  image_lower c = Ok image ->
  get_exposed_ports c = Ok exposed ->
  (is_http_service c = Ok true <->
   (exists port, In port exposed
                 /\ In (PyStr.split_head "/"%char port) HTTP_SERVICE_PORTS)
   \/ (exists pattern before after,
          In pattern web_patterns /\ image = before ++ pattern ++ after))
  /\ (is_http_service c = Ok true \/ is_http_service c = Ok false).
Proof.
  intros W Hi Hx. destruct (well_typed_reads c W) as (v & R).
  pose proof (r_image _ _ R) as Ei. rewrite Hi in Ei. injection Ei as Ei.
  pose proof (get_exposed_ports_reads c v R) as Ex.
  rewrite Hx in Ex. injection Ex as Ex.
  rewrite (is_http_service_reads c v R). unfold http_service_rule.
  rewrite <- Ei, <- Ex.
  destruct (existsb is_http_port exposed) eqn:Ea;
    destruct (existsb (fun p => PyStr.contains p image) web_patterns) eqn:Eb;
    cbn [orb]; (split; [|auto]).
  - split; [intros _|reflexivity]. left.
    apply existsb_exists in Ea. destruct Ea as (port & Hin & H).
    exists port. split; [exact Hin | apply mem_spec; exact H].
  - split; [intros _|reflexivity]. left.
    apply existsb_exists in Ea. destruct Ea as (port & Hin & H).
    exists port. split; [exact Hin | apply mem_spec; exact H].
  - split; [intros _|reflexivity]. right.
    apply existsb_exists in Eb. destruct Eb as (pattern & Hin & H).
    apply contains_spec in H. destruct H as (a & b & H).
    exists pattern, a, b. auto.
  - split; [discriminate|].
    intros [(port & Hin & H) | (pattern & a & b & Hin & H)]; exfalso.
    + assert (E : existsb is_http_port exposed = true).
      { apply existsb_exists. exists port. split; [exact Hin|].
        apply mem_spec. exact H. }
      congruence.
    + assert (E : existsb (fun p => PyStr.contains p image) web_patterns
                  = true).
      { apply existsb_exists. exists pattern. split; [exact Hin|].
        apply contains_spec. eauto. }
      congruence.
Qed.

Lemma is_http_service_spec_witness :
  well_typed Samples.redis = true
  /\ is_http_service Samples.redis = Ok false
  /\ is_http_service Samples.mixed = Ok true.
Proof.
  split; [reflexivity|]. split; [reflexivity|].
  apply (is_http_service_spec Samples.mixed _ _ eq_refl eq_refl eq_refl).
  left. exists "80/tcp". split; cbn; auto.
Defined.

Lemma nginx_env_of_signals (labels : dict pyval) (env : dict string) :
  nginx_proxy_env (signals_of labels env) = nginx_subset env.
Proof.
  unfold signals_of. rewrite caddy_fold_keeps_env. apply nginx_fold_env.
  apply (proj1 (traefik_fold_keeps labels no_signals)).
Qed.

(** X17. A well-formed record whose environment sets one of the four
    nginx-proxy variables and which has no Traefik label is classified
    [already_proxied_other], whatever it publishes. *)
Theorem nginx_proxy_variable_classifies (c : pyval) (entries : list string)
    (var value : string) (s : proxy_signals) :
  well_typed c = true ->
  config_field c "Env" (PList []) = Ok (PList (map PStr entries)) ->
  In var nginx_proxy_vars ->
  In (var ++ "=" ++ value) entries ->
  detect_proxy_signals c = Ok s ->
  traefik_labels s = [] ->
  classify_container c = Ok "already_proxied_other".
Proof.
  intros W He Hvar Hin Hs Ht.
  destruct (well_typed_classify c W)
    as (s' & published & nets & Hs' & _ & _ & _ & _ & Hc).
  rewrite Hs in Hs'. injection Hs' as <-.
  destruct (detect_proxy_signals_inv c s Hs)
    as (labels & env_val & env_list & env & _ & He' & Hi & Hp & Hsig).
  rewrite He in He'. injection He' as <-.
  cbn [py_iter] in Hi. injection Hi as <-.
  rewrite parse_env_strings in Hp. injection Hp as <-.
  assert (Hk : PyStr.contains "=" var = false).
  { cbn in Hvar.
    repeat (destruct Hvar as [<-|Hvar]; [reflexivity|]). contradiction. }
  assert (Hget : exists v, dict_get var (fold_left env_step entries [])
                           = Some v).
  { rewrite fold_env_step_get.
    destruct (last_value var entries) as [v|] eqn:El; [eauto|].
    exfalso. exact (proj1 (last_value_none var entries Hk) El _ Hin value
                      eq_refl). }
  destruct Hget as (v & Hget).
  assert (Hne : nonempty (nginx_proxy_env s) = true).
  { rewrite Hsig, nginx_env_of_signals.
    assert (Hm : In (var, v) (nginx_subset (fold_left env_step entries []))).
    { unfold nginx_subset. apply in_flat_map. exists var.
      split; [exact Hvar|]. rewrite Hget. left. reflexivity. }
    destruct (nginx_subset _); [destruct Hm | reflexivity]. }
  rewrite Hc. unfold classify_rule, rule1, rule2. rewrite Ht, Hne.
  reflexivity.
Qed.

Lemma nginx_proxy_variable_classifies_witness :
  let c := Samples.record "1111" "/legacy" "legacy-app:3" "running" []
             ["TZ=UTC"; "VIRTUAL_HOST=legacy.example"] ["9000/tcp"]
             [("9000/tcp", PList [Samples.binding "0.0.0.0" "9000"])]
             ["backend"] in
  well_typed c = true
  /\ classify_container c = Ok "already_proxied_other".
Proof.
  intros c. split; [reflexivity|].
  apply (nginx_proxy_variable_classifies c
           ["TZ=UTC"; "VIRTUAL_HOST=legacy.example"] "VIRTUAL_HOST"
           "legacy.example" (signals_of [] [("TZ", "UTC");
                                            ("VIRTUAL_HOST", "legacy.example")]));
    try reflexivity; cbn; auto.
Defined.
